(** * Kingdom turn and economy engine of pf2e-kingmaker-tools

    A shallow embedding of the accounting code of the kingdom sheet
    (src/kingdom/kingdom.ts: endTurn, adjustUnrest, checkForEvent,
    collectResources, reduceUnrest, getSettlementData), of the resource
    buttons (calculateNewValue, getCurrentValue, createUpdate) and of the
    structure browser's proficiency gate (checkProficiency), with the
    properties of the specification stated over it.

    JavaScript numbers are modelled as [Z]: every quantity of the kingdom
    sheet is an integer counter.  Strings are [string]; a JavaScript [Set] of
    activities is a [gset string]; the [skillRanks] object, read by key, is a
    [gmap string Z]. *)

From Stdlib Require Import ZArith Lia Permutation.
From stdpp Require Import gmap strings list pretty.

Local Open Scope string_scope.
Local Open Scope Z_scope.

(** ** Data model (src/kingdom/data/kingdom.ts, src/kingdom/data/structures.ts) *)

(** [Commodities] and [CommodityStorage] have the same five numeric fields. *)
Record Commodities : Type := mkCommodities {
  food : Z;
  luxuries : Z;
  ore : Z;
  lumber : Z;
  stone : Z;
}.

(** The [{now, next}] pair of a ledger: [Turns Z] for [resourcePoints] and
    [resourceDice], [Turns Commodities] for [commodities]. *)
Record Turns (A : Type) : Type := mkTurns {
  now : A;
  next : A;
}.
Arguments mkTurns {A} _ _.
Arguments now {A} _.
Arguments next {A} _.

Record Consumption : Type := mkConsumption {
  consumptionNow : Z;
  consumptionNext : Z;
  armies : Z;
}.

Record WorkSite : Type := mkWorkSite {
  quantity : Z;
  resources : Z;
}.

Record WorkSites : Type := mkWorkSites {
  mines : WorkSite;
  lumberCamps : WorkSite;
  luxurySources : WorkSite;
}.

Record RuinValues : Type := mkRuinValues {
  value : Z;
  penalty : Z;
  threshold : Z;
}.

Record Ruin : Type := mkRuin {
  crime : RuinValues;
  decay : RuinValues;
  corruption : RuinValues;
  strife : RuinValues;
}.

(** Only the [id] of a feat or bonus feat is read by the turn engine. *)
Record Feat : Type := mkFeat {
  featId : string;
  featLevel : Z;
}.

Record BonusFeat : Type := mkBonusFeat {
  bonusFeatId : string;
}.

Record Kingdom : Type := mkKingdom {
  level : Z;
  size : Z;
  atWar : bool;
  unrest : Z;
  turnsWithoutEvent : Z;
  commodities : Turns Commodities;
  resourcePoints : Turns Z;
  resourceDice : Turns Z;
  consumption : Consumption;
  workSites : WorkSites;
  ruin : Ruin;
  feats : list Feat;
  bonusFeats : list BonusFeat;
  skillRanks : gmap string Z;
}.

(** [Partial<Kingdom>], restricted to the top-level keys the engine writes. *)
Record PartialKingdom : Type := mkPartial {
  updUnrest : option Z;
  updTurnsWithoutEvent : option Z;
  updCommodities : option (Turns Commodities);
  updResourcePoints : option (Turns Z);
  updResourceDice : option (Turns Z);
  updConsumption : option Consumption;
  updRuin : option Ruin;
}.

Definition emptyUpdate : PartialKingdom :=
  mkPartial None None None None None None None.

(** Saving a partial kingdom replaces the top-level keys it carries and keeps
    the others. *)
Definition mergeKingdom (k : Kingdom) (p : PartialKingdom) : Kingdom :=
  {| level := level k;
     size := size k;
     atWar := atWar k;
     unrest := default (unrest k) (updUnrest p);
     turnsWithoutEvent := default (turnsWithoutEvent k) (updTurnsWithoutEvent p);
     commodities := default (commodities k) (updCommodities p);
     resourcePoints := default (resourcePoints k) (updResourcePoints p);
     resourceDice := default (resourceDice k) (updResourceDice p);
     consumption := default (consumption k) (updConsumption p);
     workSites := workSites k;
     ruin := default (ruin k) (updRuin p);
     feats := feats k;
     bonusFeats := bonusFeats k;
     skillRanks := skillRanks k |}.

(** ** Resource buttons *)

Module Resources.

Inductive ResourceMode : Type := gain | lose.
Inductive ResourceTurn : Type := Now | Next.

(** A function that throws returns [Throw] with the error's message. *)
Inductive Result (A : Type) : Type :=
| Ok (a : A)
| Throw (message : string).
Arguments Ok {A} _.
Arguments Throw {A} _.

Record ResourceValues : Type := mkResourceValues {
  rvValue : Z;
  rvMessage : string;
  rvMissingMessage : string;
}.

(** [obj[turn]] on a [{now, next}] pair, and [{...obj, [turn]: v}]. *)
Definition atTurn {A} (turn : ResourceTurn) (t : Turns A) : A :=
  match turn with Now => now t | Next => next t end.

Definition withTurn {A} (turn : ResourceTurn) (v : A) (t : Turns A) : Turns A :=
  match turn with
  | Now => mkTurns v (next t)
  | Next => mkTurns (now t) v
  end.

(** The five commodity keys and the four ruin keys, as the type narrowing of
    the [type === '...' || ...] tests selects them. *)
Inductive CommodityKey : Type := Food | Luxuries | Ore | Lumber | Stone.
Inductive RuinKey : Type := Crime | Decay | Strife | Corruption.

Definition atCommodity (key : CommodityKey) (c : Commodities) : Z :=
  match key with
  | Food => food c
  | Luxuries => luxuries c
  | Ore => ore c
  | Lumber => lumber c
  | Stone => stone c
  end.

Definition withCommodity (key : CommodityKey) (v : Z) (c : Commodities) : Commodities :=
  match key with
  | Food => mkCommodities v (luxuries c) (ore c) (lumber c) (stone c)
  | Luxuries => mkCommodities (food c) v (ore c) (lumber c) (stone c)
  | Ore => mkCommodities (food c) (luxuries c) v (lumber c) (stone c)
  | Lumber => mkCommodities (food c) (luxuries c) (ore c) v (stone c)
  | Stone => mkCommodities (food c) (luxuries c) (ore c) (lumber c) v
  end.

Definition atRuin (key : RuinKey) (r : Ruin) : RuinValues :=
  match key with
  | Crime => crime r
  | Decay => decay r
  | Strife => strife r
  | Corruption => corruption r
  end.

Definition withRuin (key : RuinKey) (v : RuinValues) (r : Ruin) : Ruin :=
  match key with
  | Crime => mkRuin v (decay r) (corruption r) (strife r)
  | Decay => mkRuin (crime r) v (corruption r) (strife r)
  | Strife => mkRuin (crime r) (decay r) (corruption r) v
  | Corruption => mkRuin (crime r) (decay r) v (strife r)
  end.

(** The first test of getCurrentValue:
    [type === 'food' || type === 'luxuries' || type === 'ore' ||
     type === 'lumber' || type === 'stone'] *)
Definition readCommodityKey (type : string) : option CommodityKey :=
  if String.eqb type "food" then Some Food
  else if String.eqb type "luxuries" then Some Luxuries
  else if String.eqb type "ore" then Some Ore
  else if String.eqb type "lumber" then Some Lumber
  else if String.eqb type "stone" then Some Stone
  else None.

(** The last test of getCurrentValue:
    [type === 'crime' || type === 'decay' || type === 'strife' ||
     type === 'corruption'] *)
Definition readRuinKey (type : string) : option RuinKey :=
  if String.eqb type "crime" then Some Crime
  else if String.eqb type "decay" then Some Decay
  else if String.eqb type "strife" then Some Strife
  else if String.eqb type "corruption" then Some Corruption
  else None.

(** The ruin test of createUpdate:
    [type === 'strife' || type === 'crime' || type === 'decay' ||
     type === 'corruption'] *)
Definition writeRuinKey (type : string) : option RuinKey :=
  if String.eqb type "strife" then Some Strife
  else if String.eqb type "crime" then Some Crime
  else if String.eqb type "decay" then Some Decay
  else if String.eqb type "corruption" then Some Corruption
  else None.

(** The commodity test of createUpdate:
    [type === 'lumber' || type === 'ore' || type === 'stone' ||
     type === 'food' || type === 'luxuries'] *)
Definition writeCommodityKey (type : string) : option CommodityKey :=
  if String.eqb type "lumber" then Some Lumber
  else if String.eqb type "ore" then Some Ore
  else if String.eqb type "stone" then Some Stone
  else if String.eqb type "food" then Some Food
  else if String.eqb type "luxuries" then Some Luxuries
  else None.

Section WithUnslugify.

(** [unslugify] of src/utils.ts turns a tag into its label. *)
Variable unslugify : string -> string.

(** The shortfall computed inside calculateNewValue:
    [const missing = value < 0 ? Math.abs(value) : 0]. *)
Definition missingOf (value : Z) : Z :=
  if value <? 0 then Z.abs value else 0.

Definition calculateNewValue
    (currentValue newValue : Z) (type : string) (turn : ResourceTurn)
    (mode : ResourceMode) (limit : option Z) : ResourceValues :=
  let value :=
    match mode with
    | gain => currentValue + newValue
    | lose => currentValue - newValue
    end in
  let missing := missingOf value in
  let limitedValue :=
    match limit with
    | None => value
    | Some limit => Z.max limit value
    end in
  let label := unslugify type in
  let turnLabel := match turn with Now => "this turn" | Next => "next turn" end in
  let message :=
    (match mode with gain => "Gaining" | lose => "Losing" end)
      +:+ " " +:+ pretty limitedValue +:+ " " +:+ label +:+ " " +:+ turnLabel in
  let missingMessage :=
    if (0 <? missing) && (match turn with Now => true | Next => false end)
    then "Missing " +:+ pretty missing +:+ " " +:+ label
    else "" in
  {| rvValue := limitedValue;
     rvMessage := message;
     rvMissingMessage := missingMessage |}.

End WithUnslugify.

Definition getCurrentValue (kingdom : Kingdom) (type : string) (turn : ResourceTurn)
  : Result Z :=
  match readCommodityKey type with
  | Some key => Ok (atCommodity key (atTurn turn (commodities kingdom)))
  | None =>
    if String.eqb type "unrest" then Ok (unrest kingdom)
    else if String.eqb type "resource-dice" then Ok (atTurn turn (resourceDice kingdom))
    else if String.eqb type "resource-points" || String.eqb type "roll-resource-dice"
    then Ok (atTurn turn (resourcePoints kingdom))
    else match readRuinKey type with
         | Some key => Ok (value (atRuin key (ruin kingdom)))
         | None => Throw ("Unhandled type " +:+ type)
         end
  end.

Definition createUpdate (kingdom : Kingdom) (type : string) (turn : ResourceTurn)
    (v : Z) : Result PartialKingdom :=
  if String.eqb type "roll-resource-dice" || String.eqb type "resource-points"
  then Ok (mkPartial None None None
             (Some (withTurn turn v (resourcePoints kingdom))) None None None)
  else if String.eqb type "resource-dice"
  then Ok (mkPartial None None None None
             (Some (withTurn turn v (resourceDice kingdom))) None None)
  else if String.eqb type "unrest"
  then Ok (mkPartial (Some v) None None None None None None)
  else match writeRuinKey type with
       | Some key =>
         let old := atRuin key (ruin kingdom) in
         Ok (mkPartial None None None None None None
               (Some (withRuin key (mkRuinValues v (penalty old) (threshold old))
                        (ruin kingdom))))
       | None =>
         match writeCommodityKey type with
         | Some key =>
           Ok (mkPartial None None
                 (Some (withTurn turn
                          (withCommodity key v (atTurn turn (commodities kingdom)))
                          (commodities kingdom)))
                 None None None None)
         | None => Throw ("Unhandled type " +:+ type)
         end
       end.

End Resources.

(** ** Settlements (src/structures/scene.ts, src/kingdom/data/structures.ts) *)

Module Settlement.

(** [SettlementData], the result of evaluating the structures of one scene;
    only the fields the kingdom sheet reads. *)
Record SettlementData : Type := mkSettlementData {
  leadershipActivityBonus : bool;
  consumption : Z;
  storage : Commodities;
  unlockActivities : list string;
}.

Record CurrentSceneData : Type := mkCurrentSceneData {
  name : option string;
  id : option string;
  settlementLevel : Z;
  settlementType : string;
  overcrowded : bool;
  secondaryTerritory : bool;
}.

Record SettlementSceneData : Type := mkSettlementSceneData {
  settlement : SettlementData;
  scenedData : CurrentSceneData;
}.

End Settlement.

(** ** The kingdom sheet (src/kingdom/kingdom.ts) *)

Module KingdomApp.

(** The object getSettlementData returns, which is also the accumulator of
    its [reduce]. *)
Record SettlementTotals : Type := mkSettlementTotals {
  leadershipActivityNumber : Z;
  settlementConsumption : Z;
  totalStorage : Commodities;
  unlockedActivities : gset string;
}.

(** The callback of [settlements.map(...)] in getSettlementData. *)
Definition getSettlementData_map (s : Settlement.SettlementSceneData) : SettlementTotals :=
  {| leadershipActivityNumber :=
       if Settlement.leadershipActivityBonus (Settlement.settlement s) then 3 else 2;
     settlementConsumption := Settlement.consumption (Settlement.settlement s);
     totalStorage := Settlement.storage (Settlement.settlement s);
     unlockedActivities :=
       list_to_set (Settlement.unlockActivities (Settlement.settlement s)) |}.

(** The callback of [.reduce(...)] in getSettlementData. *)
Definition getSettlementData_reduce (prev curr : SettlementTotals) : SettlementTotals :=
  {| leadershipActivityNumber :=
       Z.max (leadershipActivityNumber prev) (leadershipActivityNumber curr);
     settlementConsumption := settlementConsumption prev + settlementConsumption curr;
     totalStorage :=
       {| ore := ore (totalStorage prev) + ore (totalStorage curr);
          stone := stone (totalStorage prev) + stone (totalStorage curr);
          luxuries := luxuries (totalStorage prev) + luxuries (totalStorage curr);
          lumber := lumber (totalStorage prev) + lumber (totalStorage curr);
          food := food (totalStorage prev) + food (totalStorage curr) |};
     unlockedActivities := unlockedActivities prev ∪ unlockedActivities curr |}.

(** The initial value of the [reduce]. *)
Definition getSettlementData_init : SettlementTotals :=
  {| leadershipActivityNumber := 2;
     settlementConsumption := 0;
     totalStorage := {| ore := 0; stone := 0; luxuries := 0; lumber := 0; food := 0 |};
     unlockedActivities := ∅ |}.

Definition getSettlementData (settlements : list Settlement.SettlementSceneData) : SettlementTotals :=
  fold_left getSettlementData_reduce
    (List.map getSettlementData_map settlements)
    getSettlementData_init.

Definition calculateStorageCapacity (capacity : Z) (storage : Commodities) : Commodities :=
  {| food := capacity + food storage;
     ore := capacity + ore storage;
     luxuries := capacity + luxuries storage;
     lumber := capacity + lumber storage;
     stone := capacity + stone storage |}.

Definition calculateCommoditiesThisTurn (kingdom : Kingdom) : Commodities :=
  let sites := workSites kingdom in
  {| ore := quantity (mines sites) + resources (mines sites);
     lumber := quantity (mines sites) + resources (mines sites);
     luxuries := quantity (luxurySources sites) + resources (luxurySources sites);
     stone := quantity (lumberCamps sites) + resources (lumberCamps sites);
     (* the result type is Omit<Commodities, 'food'>: this field is never read *)
     food := 0 |}.

Definition insiderTradingResources (feats : list Feat) (bonusFeat : list BonusFeat) : Z :=
  let hasInsiderTrading :=
    existsb (fun f => String.eqb (featId f) "Insider Trading") feats
    || existsb (fun f => String.eqb (bonusFeatId f) "Insider Trading") bonusFeat in
  if hasInsiderTrading then 1 else 0.

Definition calculateAnarchy (feats : list Feat) (bonusFeats : list BonusFeat) : Z :=
  let hasEndureAnarchy :=
    existsb (fun f => String.eqb (featId f) "Endure Anarchy") feats
    || existsb (fun f => String.eqb (bonusFeatId f) "Endure Anarchy") bonusFeats in
  if hasEndureAnarchy then 24 else 20.

Definition calculateEventDC (turnsWithoutEvent : Z) : Z :=
  Z.max 1 (16 - (turnsWithoutEvent * 5)).

(** *** Effects

    A turn step reads and writes the kingdom stored on the sheet actor, reads
    the settlement scenes of the game, rolls dice and posts chat messages.
    [World] holds what these effects touch; a step is a function from the
    world to a result and the world after it. *)

(** What a chat message carries.  The HTML templates of the turn summaries
    are kept as a constructor with the interpolated numbers. *)
Inductive ChatMessage : Type :=
| Content (content : string)
| EventOccurs (content : string) (rollMode : string)
| RollMessage (formula : string) (total : Z) (flavor : string) (rollMode : option string)
| EndingTurn
| GainingUnrest (overcrowdedSettlements secondaryTerritories atWar total : Z)
| CollectingResources (rolledPoints ore lumber stone luxuries : Z).

Record World : Type := mkWorld {
  (** the 'kingdom-sheet' flag of the sheet actor *)
  sheet : Kingdom;
  (** what getAllSettlementSceneDataAndStructures(game) returns *)
  settlementScenes : list Settlement.SettlementSceneData;
  (** the 'kingdomEventRollMode' setting *)
  kingdomEventRollMode : string;
  (** the chat log, oldest message first *)
  chat : list ChatMessage;
  (** the dice: the total of the n-th roll made, given its formula *)
  dice : nat -> string -> Z;
  rolled : nat;
}.

Definition App (A : Type) : Type := World -> A * World.

#[export] Instance App_ret : MRet App := fun A a w => (a, w).

#[export] Instance App_bind : MBind App := fun A B f m w =>
  let (a, w') := m w in f a w'.

Definition when (b : bool) (m : App unit) : App unit :=
  if b then m else mret tt.

Definition getKingdom : App Kingdom := fun w => (sheet w, w).

Definition saveKingdom (kingdom : PartialKingdom) : App unit := fun w =>
  (tt, {| sheet := mergeKingdom (sheet w) kingdom;
          settlementScenes := settlementScenes w;
          kingdomEventRollMode := kingdomEventRollMode w;
          chat := chat w;
          dice := dice w;
          rolled := rolled w |}).

Definition update (data : PartialKingdom) : App unit := saveKingdom data.

Definition getAllSettlementSceneDataAndStructures : App (list Settlement.SettlementSceneData) :=
  fun w => (settlementScenes w, w).

Definition getStringSetting_kingdomEventRollMode : App string :=
  fun w => (kingdomEventRollMode w, w).

Definition createChatMessage (m : ChatMessage) : App unit := fun w =>
  (tt, {| sheet := sheet w;
          settlementScenes := settlementScenes w;
          kingdomEventRollMode := kingdomEventRollMode w;
          chat := chat w ++ [m];
          dice := dice w;
          rolled := rolled w |}).

(** [await (new Roll(formula).roll())]: the evaluated roll, as its formula
    and its total. *)
Record Roll : Type := mkRoll {
  formula : string;
  total : Z;
}.

Definition roll (formula : string) : App Roll := fun w =>
  (mkRoll formula (dice w (rolled w) formula),
   {| sheet := sheet w;
      settlementScenes := settlementScenes w;
      kingdomEventRollMode := kingdomEventRollMode w;
      chat := chat w;
      dice := dice w;
      rolled := S (rolled w) |}).

Definition toMessage (r : Roll) (flavor : string) (rollMode : option string) : App unit :=
  createChatMessage (RollMessage (formula r) (total r) flavor rollMode).

Definition dquote : string := String (Ascii.ascii_of_nat 34) EmptyString.

(** *** Turn steps *)

(** The size and level tables of src/kingdom/data/kingdom.ts: only the
    fields the turn steps read. *)
Record KingdomSizeData : Type := mkKingdomSizeData {
  sizeType : string;
  resourceDieSize : string;
  commodityCapacity : Z;
}.

Module LevelData.
Record t : Type := mk { resourceDice : Z }.
End LevelData.

Section TurnSteps.

(** [getSizeData] and [getLevelData] look a kingdom size, respectively a
    level, up in tables that the steps treat as given. *)
Variable getSizeData : Z -> KingdomSizeData.
Variable getLevelData : Z -> LevelData.t.

Definition getCapacity (sizeData : KingdomSizeData) : App Commodities :=
  settlementSceneDataAndStructures ← getAllSettlementSceneDataAndStructures;
  let storage := totalStorage (getSettlementData settlementSceneDataAndStructures) in
  mret (calculateStorageCapacity (commodityCapacity sizeData) storage).

Definition rollResourceDice (resourceDieSize : string) (dice : Z) : App Z :=
  r ← roll (pretty dice +:+ resourceDieSize);
  toMessage r "Rolling Resource Dice" None;;
  mret (total r).

Definition endTurn : App unit :=
  current ← getKingdom;
  let sizeData := getSizeData (size current) in
  capacity ← getCapacity sizeData;
  createChatMessage EndingTurn;;
  update
    {| updUnrest := None;
       updTurnsWithoutEvent := None;
       updRuin := None;
       updResourceDice :=
         Some {| now := next (resourcePoints current); next := 0 |};
       updResourcePoints :=
         Some {| now := next (resourcePoints current); next := 0 |};
       updConsumption :=
         Some {| consumptionNow := consumptionNext (consumption current);
                 consumptionNext := 0;
                 armies := armies (consumption current) |};
       updCommodities :=
         Some {| now :=
                   {| food := Z.min (food capacity)
                                (food (now (commodities current))
                                 + food (next (commodities current)));
                      luxuries := Z.min (luxuries capacity)
                                    (luxuries (now (commodities current))
                                     + luxuries (next (commodities current)));
                      stone := Z.min (stone capacity)
                                 (stone (now (commodities current))
                                  + stone (next (commodities current)));
                      lumber := Z.min (lumber capacity)
                                  (lumber (now (commodities current))
                                   + lumber (next (commodities current)));
                      ore := Z.min (ore capacity)
                               (ore (now (commodities current))
                                + ore (next (commodities current))) |};
                 next := {| food := 0; luxuries := 0; stone := 0; lumber := 0; ore := 0 |}
              |} |}.

Definition adjustUnrest : App unit :=
  current ← getKingdom;
  data ← getAllSettlementSceneDataAndStructures;
  let atWar := if atWar current then 1 else 0 in
  let overcrowdedSettlements :=
    Z.of_nat (length (List.filter (fun s => Settlement.overcrowded (Settlement.scenedData s)) data)) in
  let secondaryTerritories :=
    if existsb (fun s => Settlement.secondaryTerritory (Settlement.scenedData s)) data then 1 else 0 in
  let newUnrest := atWar + overcrowdedSettlements + secondaryTerritories in
  let unrest := newUnrest + unrest current in
  unrest ←
    (if (20 <=? level current) && (0 <? unrest)
     then
       createChatMessage
         (Content ("Ignoring Unrest increase due to " +:+ dquote
                   +:+ "Envy of the World" +:+ dquote +:+ " Kingdom Feature"));;
       mret 0
     else mret unrest);
  when (0 <? unrest)
    (createChatMessage
       (GainingUnrest overcrowdedSettlements secondaryTerritories atWar newUnrest));;
  when (10 <=? unrest)
    (ruinRoll ← roll "1d10";
     toMessage ruinRoll "Gaining points to Ruin (distribute as you wish)" None;;
     r ← roll "1d20";
     toMessage r "Check if losing a hex on DC 11" None;;
     when (11 <=? total r)
       (createChatMessage (Content "You lose one hex of your choice")));;
  when (calculateAnarchy (feats current) (bonusFeats current) <=? unrest)
    (createChatMessage
       (Content "Kingdom falls into anarchy, unless you spend all fame/infamy points. Only Quell Unrest leadership activities can be performed and all checks are worsened by a degree"));;
  update
    {| updUnrest := Some unrest;
       updTurnsWithoutEvent := None;
       updCommodities := None;
       updResourcePoints := None;
       updResourceDice := None;
       updConsumption := None;
       updRuin := None |}.

Definition checkForEvent : App unit :=
  rollMode ← getStringSetting_kingdomEventRollMode;
  kingdom ← getKingdom;
  let turnsWithoutEvent := turnsWithoutEvent kingdom in
  let dc := calculateEventDC turnsWithoutEvent in
  r ← roll "1d20";
  toMessage r ("Checking for Event on DC " +:+ pretty dc) (Some rollMode);;
  if dc <=? total r
  then
    createChatMessage (EventOccurs "An event occurs, roll a Kingdom Event!" rollMode);;
    update (mkPartial None (Some 0) None None None None None)
  else
    update (mkPartial None (Some (turnsWithoutEvent + 1)) None None None None None).

Definition collectResources : App unit :=
  current ← getKingdom;
  let levelData := getLevelData (size current) in
  let featDice := insiderTradingResources (feats current) (bonusFeats current) in
  let sizeData := getSizeData (size current) in
  capacity ← getCapacity sizeData;
  let dice := LevelData.resourceDice levelData + now (resourceDice current) + featDice in
  rolledPoints ← rollResourceDice (resourceDieSize sizeData) dice;
  let commodities_ := calculateCommoditiesThisTurn current in
  createChatMessage
    (CollectingResources rolledPoints (ore commodities_) (lumber commodities_)
       (stone commodities_) (luxuries commodities_));;
  update
    {| updUnrest := None;
       updTurnsWithoutEvent := None;
       updConsumption := None;
       updRuin := None;
       updResourcePoints :=
         Some {| now := now (resourcePoints current) + rolledPoints;
                 next := next (resourcePoints current) |};
       updResourceDice :=
         Some {| now := 0; next := next (resourceDice current) |};
       updCommodities :=
         Some {| now :=
                   {| ore := Z.min (ore capacity) (ore commodities_);
                      lumber := Z.min (lumber capacity) (lumber commodities_);
                      luxuries := Z.min (luxuries capacity) (luxuries commodities_);
                      stone := Z.min (stone capacity) (stone commodities_);
                      food := food (now (commodities current)) |};
                 next := next (commodities current) |} |}.

Definition reduceUnrest : App unit :=
  r ← roll "1d20";
  toMessage r "Reducing Unrest by 1 on an 11 or higher" None;;
  if 10 <? total r
  then
    kingdom ← getKingdom;
    update (mkPartial (Some (Z.max 0 (unrest kingdom - 1)))
              None None None None None None)
  else mret tt.

End TurnSteps.

End KingdomApp.

(** ** The structure browser's gates *)

Module StructureBrowser.

Record ConstructionSkill : Type := mkConstructionSkill {
  skill : string;
  proficiencyRank : option Z;
}.

Record Construction : Type := mkConstruction {
  skills : list ConstructionSkill;
  dc : Z;
  rp : option Z;
  constructionLumber : option Z;
  constructionLuxuries : option Z;
  constructionOre : option Z;
  constructionStone : option Z;
}.

(** A [Structure], with the one optional field the proficiency gate reads. *)
Record Structure : Type := mkStructure {
  structureName : string;
  construction : option Construction;
}.

(** [kingdom.skillRanks[requirement.skill] >= (requirement.proficiencyRank ?? 0)]:
    a skill missing from [skillRanks] reads as [undefined], and
    [undefined >= n] is false. *)
Definition meetsRequirement (kingdom : Kingdom) (requirement : ConstructionSkill) : bool :=
  match skillRanks kingdom !! skill requirement with
  | Some rank => default 0 (proficiencyRank requirement) <=? rank
  | None => false
  end.

Definition checkProficiency (structure : Structure) (kingdom : Kingdom) : bool :=
  match construction structure with
  | None => true
  | Some c =>
    (length (skills c) =? 0)%nat
    || existsb (meetsRequirement kingdom) (skills c)
  end.

End StructureBrowser.

(** ** Sample data *)

Module Samples.

Import Resources KingdomApp StructureBrowser.

Definition noRuin : Ruin :=
  let zero := mkRuinValues 0 0 10 in mkRuin zero zero zero zero.

Definition noCommodities : Commodities := mkCommodities 0 0 0 0 0.

Definition noSites : WorkSites :=
  mkWorkSites (mkWorkSite 0 0) (mkWorkSite 0 0) (mkWorkSite 0 0).

(** A level 1 kingdom with empty ledgers. *)
Definition emptyKingdom : Kingdom :=
  {| level := 1;
     size := 1;
     atWar := false;
     unrest := 0;
     turnsWithoutEvent := 0;
     commodities := mkTurns noCommodities noCommodities;
     resourcePoints := mkTurns 0 0;
     resourceDice := mkTurns 0 0;
     consumption := mkConsumption 0 0 0;
     workSites := noSites;
     ruin := noRuin;
     feats := [];
     bonusFeats := [];
     skillRanks := ∅ |}.

(** A size table whose every size rolls d6 and stores 4 of each commodity,
    and level tables granting [base] resource dice. *)
Definition d6SizeData (size : Z) : KingdomSizeData :=
  {| sizeType := "small"; resourceDieSize := "d6"; commodityCapacity := 4 |}.

Definition levelDataOf (base : Z) (level : Z) : LevelData.t := LevelData.mk base.

(** Dice that always come up [n]. *)
Definition fixedDice (n : Z) : nat -> string -> Z := fun _ _ => n.

Definition worldOf (k : Kingdom) (scenes : list Settlement.SettlementSceneData) (n : Z)
  : World :=
  {| sheet := k;
     settlementScenes := scenes;
     kingdomEventRollMode := "gmroll";
     chat := [];
     dice := fixedDice n;
     rolled := 0 |}.

(** One resource die and five resource points staged for the next turn. *)
Definition stagedKingdom : Kingdom :=
  {| level := 1;
     size := 1;
     atWar := false;
     unrest := 0;
     turnsWithoutEvent := 0;
     commodities := mkTurns noCommodities noCommodities;
     resourcePoints := mkTurns 0 5;
     resourceDice := mkTurns 0 1;
     consumption := mkConsumption 0 0 0;
     workSites := noSites;
     ruin := noRuin;
     feats := [];
     bonusFeats := [];
     skillRanks := ∅ |}.

(** Three ore in store and two mines. *)
Definition miningKingdom : Kingdom :=
  {| level := 1;
     size := 1;
     atWar := false;
     unrest := 0;
     turnsWithoutEvent := 0;
     commodities := mkTurns (mkCommodities 0 0 3 0 0) noCommodities;
     resourcePoints := mkTurns 0 0;
     resourceDice := mkTurns 0 0;
     consumption := mkConsumption 0 0 0;
     workSites := mkWorkSites (mkWorkSite 2 0) (mkWorkSite 0 0) (mkWorkSite 0 0);
     ruin := noRuin;
     feats := [];
     bonusFeats := [];
     skillRanks := ∅ |}.

(** Two stored resource dice; [fs] are the kingdom's feats. *)
Definition twoDiceKingdom (fs : list Feat) : Kingdom :=
  {| level := 1;
     size := 1;
     atWar := false;
     unrest := 0;
     turnsWithoutEvent := 0;
     commodities := mkTurns noCommodities noCommodities;
     resourcePoints := mkTurns 10 0;
     resourceDice := mkTurns 2 0;
     consumption := mkConsumption 0 0 0;
     workSites := noSites;
     ruin := noRuin;
     feats := fs;
     bonusFeats := [];
     skillRanks := ∅ |}.

(** A level 20 kingdom at war with 5 unrest. *)
Definition envyKingdom : Kingdom :=
  {| level := 20;
     size := 1;
     atWar := true;
     unrest := 5;
     turnsWithoutEvent := 0;
     commodities := mkTurns noCommodities noCommodities;
     resourcePoints := mkTurns 0 0;
     resourceDice := mkTurns 0 0;
     consumption := mkConsumption 0 0 0;
     workSites := noSites;
     ruin := noRuin;
     feats := [];
     bonusFeats := [];
     skillRanks := ∅ |}.

(** Trained in arts, untrained in magic. *)
Definition artsKingdom : Kingdom :=
  {| level := 1;
     size := 1;
     atWar := false;
     unrest := 3;
     turnsWithoutEvent := 0;
     commodities := mkTurns noCommodities noCommodities;
     resourcePoints := mkTurns 0 0;
     resourceDice := mkTurns 0 0;
     consumption := mkConsumption 0 0 0;
     workSites := noSites;
     ruin := noRuin;
     feats := [];
     bonusFeats := [];
     skillRanks := {[ "arts" := 1; "magic" := 0 ]} |}.

(** A structure built with arts (trained) or magic (expert). *)
Definition theater : Structure :=
  {| structureName := "Theater";
     construction :=
       Some {| skills := [ mkConstructionSkill "arts" (Some 1);
                           mkConstructionSkill "magic" (Some 2) ];
               dc := 20;
               rp := Some 10;
               constructionLumber := None;
               constructionLuxuries := None;
               constructionOre := None;
               constructionStone := None |} |}.

End Samples.

(** ** Vocabulary of the specification *)

Module Spec.

Import Resources KingdomApp StructureBrowser.

(** The closed set of resource tags: the members of the [RolledResources]
    union type, in the order of its declaration. *)
Definition RolledResources : list string :=
  [ "resource-dice"; "crime"; "decay"; "corruption"; "strife"; "resource-points";
    "food"; "luxuries"; "unrest"; "ore"; "lumber"; "stone"; "roll-resource-dice" ].

(** The tags without a next-turn column. *)
Definition turnlessResources : list string :=
  [ "unrest"; "crime"; "decay"; "strife"; "corruption" ].

(** A skill requirement is satisfied when the kingdom's recorded rank for the
    skill is at least the required rank, a missing required rank counting
    as 0. *)
Definition requirementSatisfied (kingdom : Kingdom) (requirement : ConstructionSkill) : Prop :=
  exists rank,
    skillRanks kingdom !! skill requirement = Some rank
    /\ default 0 (proficiencyRank requirement) <= rank.

(** The skill requirements of a structure's construction data; none when the
    structure has no construction data. *)
Definition requirements (structure : Structure) : list ConstructionSkill :=
  match construction structure with
  | None => []
  | Some c => skills c
  end.

Definition everyRequirementSatisfied (structure : Structure) (kingdom : Kingdom) : Prop :=
  forall r, In r (requirements structure) -> requirementSatisfied kingdom r.

Definition someRequirementSatisfied (structure : Structure) (kingdom : Kingdom) : Prop :=
  exists r, In r (requirements structure) /\ requirementSatisfied kingdom r.

(** The kingdom has the feat [name], as a level feat or as a bonus feat. *)
Definition hasFeat (name : string) (kingdom : Kingdom) : Prop :=
  (exists f, In f (feats kingdom) /\ featId f = name)
  \/ (exists f, In f (bonusFeats kingdom) /\ bonusFeatId f = name).

(** The storage capacity of the kingdom in a world: the base capacity of its
    size plus the storage of all settlements. *)
Definition storageCapacity (getSizeData : Z -> KingdomSizeData) (w : World) : Commodities :=
  calculateStorageCapacity
    (commodityCapacity (getSizeData (size (sheet w))))
    (totalStorage (getSettlementData (settlementScenes w))).

(** The unrest a turn adds: one if at war, one per overcrowded settlement,
    one if any settlement lies in a secondary territory. *)
Definition unrestIncrease (w : World) : Z :=
  (if atWar (sheet w) then 1 else 0)
  + Z.of_nat (length (List.filter
                        (fun s => Settlement.overcrowded (Settlement.scenedData s))
                        (settlementScenes w)))
  + (if existsb (fun s => Settlement.secondaryTerritory (Settlement.scenedData s))
          (settlementScenes w)
     then 1 else 0).

(** collectResources, run from [w] to [w'], rolled exactly [n] dice of size
    [die]: one roll of the formula [n] followed by [die] was made and posted,
    its total was added to [resourcePoints.now], and [resourceDice.now] was
    reset to 0. *)
Definition rollsResourceDice (n : Z) (die : string) (w w' : World) : Prop :=
  let f := pretty n +:+ die in
  let r := dice w (rolled w) f in
  rolled w' = S (rolled w)
  /\ (exists summary,
        chat w' = (chat w ++ [RollMessage f r "Rolling Resource Dice" None; summary])%list)
  /\ resourcePoints (sheet w')
     = mkTurns (now (resourcePoints (sheet w)) + r) (next (resourcePoints (sheet w)))
  /\ resourceDice (sheet w') = mkTurns 0 (next (resourceDice (sheet w))).

Definition sumZ (l : list Z) : Z := fold_right Z.add 0 l.

End Spec.

(** ** Further code of the kingdom sheet, the resource buttons and the
    structure browser *)

Module KingdomSheet.

Import Resources KingdomApp.

Definition newline : string := String (Ascii.ascii_of_nat 10) EmptyString.

(** payConsumption of src/kingdom/kingdom.ts.  The message is the template
    literal of the source, with its line breaks and indentation. *)
Definition payConsumption : App unit :=
  current ← getKingdom;
  settlementSceneDataAndStructures ← getAllSettlementSceneDataAndStructures;
  let settlementConsumption :=
    settlementConsumption (getSettlementData settlementSceneDataAndStructures) in
  let totalConsumption :=
    armies (consumption current) + consumptionNow (consumption current)
    + settlementConsumption in
  let currentFood := food (now (commodities current)) in
  let missingFood := totalConsumption - currentFood in
  let pay := missingFood * 5 in
  if 0 <? totalConsumption
  then
    createChatMessage
      (Content
         ("<h2>Paying Consumption</h2>" +:+ newline
          +:+ "            <ul>" +:+ newline
          +:+ "                <li>Reducing food commodities by "
          +:+ pretty (Z.min currentFood totalConsumption) +:+ "</li>" +:+ newline
          +:+ "                "
          +:+ (if 0 <? missingFood
               then "<li>Missing " +:+ pretty missingFood
                    +:+ " food commodities. Either pay " +:+ pretty pay
                    +:+ " RP or gain [[/r 1d4]] Unrest</li>"
               else "")
          +:+ newline
          +:+ "            </ul>" +:+ newline
          +:+ "            "));;
    update
      {| updUnrest := None;
         updTurnsWithoutEvent := None;
         updResourcePoints := None;
         updResourceDice := None;
         updConsumption := None;
         updRuin := None;
         updCommodities :=
           Some {| now := withCommodity Food (Z.max 0 (currentFood - totalConsumption))
                            (now (commodities current));
                   next := next (commodities current) |} |}
  else mret tt.

End KingdomSheet.

Module ResourceLimits.

Import Resources KingdomApp.

(** The commodity test of getLimit:
    [type === 'food' || type === 'luxuries' || type === 'lumber' ||
     type === 'ore' || type === 'stone'] *)
Definition limitCommodityKey (type : string) : option CommodityKey :=
  if String.eqb type "food" then Some Food
  else if String.eqb type "luxuries" then Some Luxuries
  else if String.eqb type "lumber" then Some Lumber
  else if String.eqb type "ore" then Some Ore
  else if String.eqb type "stone" then Some Stone
  else None.

Section WithCapacity.

(** [getSizeData] of the kingdom data and the exported [getCapacity(game,
    commodityCapacity)] of the kingdom sheet are taken as given. *)
Variable Game : Type.
Variable getSizeData : Z -> KingdomSizeData.
Variable getCapacity : Game -> Z -> Commodities.

Definition getLimit (game : Game) (kingdom : Kingdom) (type : string)
    (turn : ResourceTurn) : option Z :=
  match turn, limitCommodityKey type with
  | Next, Some key =>
    let commodityCapacity := commodityCapacity (getSizeData (size kingdom)) in
    let capacity := getCapacity game commodityCapacity in
    Some (atCommodity key capacity)
  | _, _ => None
  end.

End WithCapacity.

End ResourceLimits.

Module BuildingCost.

Import KingdomApp StructureBrowser.

Definition checkRpCost (structure : Structure) (kingdom : Kingdom) : bool :=
  default 0 (construction structure ≫= rp) <=? now (resourcePoints kingdom).

Definition checkLumberCost (structure : Structure) (kingdom : Kingdom) : bool :=
  default 0 (construction structure ≫= constructionLumber)
  <=? lumber (now (commodities kingdom)).

Definition checkOreCost (structure : Structure) (kingdom : Kingdom) : bool :=
  default 0 (construction structure ≫= constructionOre)
  <=? ore (now (commodities kingdom)).

Definition checkStoneCost (structure : Structure) (kingdom : Kingdom) : bool :=
  default 0 (construction structure ≫= constructionStone)
  <=? stone (now (commodities kingdom)).

Definition checkLuxuriesCost (structure : Structure) (kingdom : Kingdom) : bool :=
  default 0 (construction structure ≫= constructionLuxuries)
  <=? luxuries (now (commodities kingdom)).

Definition checkBuildingCost (structure : Structure) (kingdom : Kingdom) : bool :=
  checkLumberCost structure kingdom
  && checkRpCost structure kingdom
  && checkLuxuriesCost structure kingdom
  && checkOreCost structure kingdom
  && checkStoneCost structure kingdom.

(** The [Costs] the pay dialog hands to its callback. *)
Record Costs : Type := mkCosts {
  costsRp : Z;
  costsOre : Z;
  costsLumber : Z;
  costsLuxuries : Z;
  costsStone : Z;
}.

Section Pay.

(** [formatCosts] of the pay dialog renders the costs for the chat. *)
Variable formatCosts : Costs -> string.

(** The [pay] callback of payStructure; [kingdom] is the browser's
    [this.kingdom]. *)
Definition pay (kingdom : Kingdom) (costs : Costs) : App unit :=
  saveKingdom
    {| updUnrest := None;
       updTurnsWithoutEvent := None;
       updResourceDice := None;
       updConsumption := None;
       updRuin := None;
       updCommodities :=
         Some {| now :=
                   {| food := food (now (commodities kingdom));
                      ore := Z.max 0 (ore (now (commodities kingdom)) - costsOre costs);
                      lumber :=
                        Z.max 0 (lumber (now (commodities kingdom)) - costsLumber costs);
                      luxuries :=
                        Z.max 0 (luxuries (now (commodities kingdom)) - costsLuxuries costs);
                      stone :=
                        Z.max 0 (stone (now (commodities kingdom)) - costsStone costs) |};
                 next := next (commodities kingdom) |};
       updResourcePoints :=
         Some {| now := Z.max 0 (now (resourcePoints kingdom) - costsRp costs);
                 next := next (resourcePoints kingdom) |} |};;
  createChatMessage (Content ("Paying " +:+ formatCosts costs)).

End Pay.

End BuildingCost.

(** ** Schema migrations (src/migrations.ts) *)

Module Migrations.

Section Migrate.

(** The camping sheet and the rest of the game a migration may touch. *)
Variable Camping : Type.
Variable Other : Type.

Record Backup : Type := mkBackup {
  backupVersion : Z;
  backupCamping : option Camping;
  backupKingdom : option Kingdom;
}.

Record Game : Type := mkGame {
  (** the 'schemaVersion' setting *)
  schemaVersion : Z;
  (** the 'latestMigrationBackup' setting *)
  latestMigrationBackup : option Backup;
  isFirstGm : bool;
  (** the sheets stored on the kingdom and camping actors *)
  kingdomSheet : Kingdom;
  campingSheet : Camping;
  other : Other;
  (** [ui.notifications.info] messages, oldest first *)
  notifications : list string;
}.

(** A [Migration]: its version and its three methods.  Each method is handed
    the game, which it may read and change; migrateKingdom and migrateCamping
    are also handed the sheet they change in place. *)
Record Migration : Type := mkMigration {
  version : Z;
  migrateKingdom : Game -> Kingdom -> Game * Kingdom;
  migrateCamping : Game -> Camping -> Game * Camping;
  migrateOther : Game -> Game;
}.

Definition info (message : string) (game : Game) : Game :=
  {| schemaVersion := schemaVersion game;
     latestMigrationBackup := latestMigrationBackup game;
     isFirstGm := isFirstGm game;
     kingdomSheet := kingdomSheet game;
     campingSheet := campingSheet game;
     other := other game;
     notifications := notifications game ++ [message] |}.

Definition setSchemaVersion (v : Z) (game : Game) : Game :=
  {| schemaVersion := v;
     latestMigrationBackup := latestMigrationBackup game;
     isFirstGm := isFirstGm game;
     kingdomSheet := kingdomSheet game;
     campingSheet := campingSheet game;
     other := other game;
     notifications := notifications game |}.

Definition setLatestMigrationBackup (backup : Backup) (game : Game) : Game :=
  {| schemaVersion := schemaVersion game;
     latestMigrationBackup := Some backup;
     isFirstGm := isFirstGm game;
     kingdomSheet := kingdomSheet game;
     campingSheet := campingSheet game;
     other := other game;
     notifications := notifications game |}.

Definition saveKingdom (kingdom : Kingdom) (game : Game) : Game :=
  {| schemaVersion := schemaVersion game;
     latestMigrationBackup := latestMigrationBackup game;
     isFirstGm := isFirstGm game;
     kingdomSheet := kingdom;
     campingSheet := campingSheet game;
     other := other game;
     notifications := notifications game |}.

Definition saveCamping (camping : Camping) (game : Game) : Game :=
  {| schemaVersion := schemaVersion game;
     latestMigrationBackup := latestMigrationBackup game;
     isFirstGm := isFirstGm game;
     kingdomSheet := kingdomSheet game;
     campingSheet := camping;
     other := other game;
     notifications := notifications game |}.

(** [kingdomActor] and [campingActor] tell whether the actor was found. *)
Definition createBackups (kingdomActor campingActor : bool) (currentVersion : Z)
    (game : Game) : Game :=
  let backup :=
    {| backupVersion := currentVersion;
       backupCamping := if campingActor then Some (campingSheet game) else None;
       backupKingdom := if kingdomActor then Some (kingdomSheet game) else None |} in
  setLatestMigrationBackup backup game.

Variable migrations : list Migration.

Definition latestMigration : Z :=
  fold_right Z.max 1 (List.map version migrations).

Definition migrationsToRun (currentVersion : Z) : list Migration :=
  List.filter (fun m => currentVersion <? version m) migrations.

(** [for (const migration of migrationsToRun) await migration.f(game, x)] *)
Definition runAll {A} (f : Migration -> Game -> A -> Game * A)
    (ms : list Migration) (game : Game) (x : A) : Game * A :=
  fold_left (fun gx m => f m (fst gx) (snd gx)) ms (game, x).

(** [for (const migration of migrationsToRun) await migration.migrateOther(game)] *)
Definition runOthers (ms : list Migration) (game : Game) : Game :=
  fold_left (fun g m => migrateOther m g) ms game.

Definition migrate (kingdomActor campingActor : bool) (game : Game) : Game :=
  let currentVersion := schemaVersion game in
  if isFirstGm game && (currentVersion <? latestMigration)
  then
    let game :=
      info "Running Kingmaker Tools Migrations, please do not close the window" game in
    let game := createBackups kingdomActor campingActor currentVersion game in
    let ms := migrationsToRun currentVersion in
    let game :=
      if kingdomActor
      then
        let kingdom := kingdomSheet game in
        let gk := runAll migrateKingdom ms game kingdom in
        saveKingdom (snd gk) (fst gk)
      else game in
    let game :=
      if campingActor
      then
        let camping := campingSheet game in
        let gc := runAll migrateCamping ms game camping in
        saveCamping (snd gc) (fst gc)
      else game in
    let game := runOthers ms game in
    let game := setSchemaVersion latestMigration game in
    info "Successfully migrated Kingmaker tools" game
  else game.

(** A migration that keeps to its own object: migrateKingdom and
    migrateCamping leave the game as it is and change the sheet in a way that
    does not depend on the game; migrateOther changes only the rest of the
    game, in a way that depends only on it. *)
Definition withOther (o : Other) (game : Game) : Game :=
  {| schemaVersion := schemaVersion game;
     latestMigrationBackup := latestMigrationBackup game;
     isFirstGm := isFirstGm game;
     kingdomSheet := kingdomSheet game;
     campingSheet := campingSheet game;
     other := o;
     notifications := notifications game |}.

Definition keepsToItself (m : Migration) : Prop :=
  (forall g k, fst (migrateKingdom m g k) = g)
  /\ (forall g g' k, snd (migrateKingdom m g k) = snd (migrateKingdom m g' k))
  /\ (forall g c, fst (migrateCamping m g c) = g)
  /\ (forall g g' c, snd (migrateCamping m g c) = snd (migrateCamping m g' c))
  /\ (forall g, migrateOther m g = withOther (other (migrateOther m g)) g)
  /\ (forall g g', other g = other g' ->
                   other (migrateOther m g) = other (migrateOther m g')).

End Migrate.

Arguments mkBackup {Camping} _ _ _.
Arguments backupVersion {Camping} _.
Arguments backupCamping {Camping} _.
Arguments backupKingdom {Camping} _.
Arguments schemaVersion {Camping Other} _.
Arguments latestMigrationBackup {Camping Other} _.
Arguments isFirstGm {Camping Other} _.
Arguments kingdomSheet {Camping Other} _.
Arguments campingSheet {Camping Other} _.
Arguments other {Camping Other} _.
Arguments notifications {Camping Other} _.
Arguments version {Camping Other} _.
Arguments migrateKingdom {Camping Other} _ _ _.
Arguments migrateCamping {Camping Other} _ _ _.
Arguments migrateOther {Camping Other} _ _.
Arguments info {Camping Other} _ _.
Arguments setSchemaVersion {Camping Other} _ _.
Arguments setLatestMigrationBackup {Camping Other} _ _.
Arguments saveKingdom {Camping Other} _ _.
Arguments saveCamping {Camping Other} _ _.
Arguments createBackups {Camping Other} _ _ _ _.
Arguments withOther {Camping Other} _ _.
Arguments keepsToItself {Camping Other} _.
Arguments latestMigration {Camping Other} _.
Arguments migrationsToRun {Camping Other} _ _.
Arguments runAll {Camping Other A} _ _ _ _.
Arguments runOthers {Camping Other} _ _.
Arguments migrate {Camping Other} _ _ _ _.

End Migrations.

(** ** Camping (src/camping/camping.ts) *)

Module Camping.

Record CampingActivity : Type := mkCampingActivity {
  activity : string;
  actorUuid : option string;
  result : option string;
  selectedSkill : option string;
}.

Record CombatEffect : Type := mkCombatEffect {
  uuid : string;
  target : string;
}.

Definition combatEffects : gmap string CombatEffect :=
  list_to_map
    [ ("Enhance Weapons",
       mkCombatEffect
         "@UUID[Compendium.pf2e-kingmaker-tools.kingmaker-tools-camping-effects.ZKJlIqyFgbKDACnG]{Enhance Weapons}"
         "Allies");
      ("Set Traps",
       mkCombatEffect
         "@UUID[Compendium.pf2e-kingmaker-tools.kingmaker-tools-camping-effects.PSBOS7ZEl9RGWBqD]{Set Traps}"
         "Enemies");
      ("Undead Guardians",
       mkCombatEffect
         "@UUID[Compendium.pf2e-kingmaker-tools.kingmaker-tools-camping-effects.KysTaC245mOnSnmE]{Undead Guardians}"
         "1 Ally");
      ("Water Hazards",
       mkCombatEffect
         "@UUID[Compendium.pf2e-kingmaker-tools.kingmaker-tools-camping-effects.LN6mH7Muj4hgvStt]{Water Hazards}"
         "Enemies") ].

(** The truth value of [a.actorUuid]: a string other than the empty one. *)
Definition truthy (s : option string) : bool :=
  match s with
  | Some s => negb (String.eqb s "")
  | None => false
  end.

Section WithObjectPrototype.

(** [combatEffects] is an object literal: besides its four own keys,
    [name in combatEffects] and [combatEffects[name]] find the properties
    every object inherits from Object.prototype (toString, constructor,
    __proto__, ...).  Which names those are, and the values they hold, is the
    engine's; it is taken as given. *)
Variable Inherited : Type.
Variable objectPrototype : string -> option Inherited.

(** What an entry of the result holds: an effect of the table, or a value
    inherited from Object.prototype. *)
Inductive Entry : Type :=
| Effect (effect : CombatEffect)
| InheritedValue (v : Inherited).

(** [combatEffects[activityName]], defined exactly when
    [activityName in combatEffects]: own keys first, then the prototype. *)
Definition lookupIn (activityName : string) : option Entry :=
  match combatEffects !! activityName with
  | Some effect => Some (Effect effect)
  | None => InheritedValue <$> objectPrototype activityName
  end.

(** [result[activityName] = value] on an ordinary object: it adds or
    replaces the own property, except for the name '__proto__', whose
    inherited setter changes the prototype and adds no property. *)
Definition assign (activityName : string) (v : Entry) (result : gmap string Entry)
  : gmap string Entry :=
  if String.eqb activityName "__proto__" then result
  else <[activityName := v]> result.

(** The body of the [forEach] of getCombatEffects, on the result so far. *)
Definition getCombatEffects_each (result : gmap string Entry) (a : CampingActivity)
  : gmap string Entry :=
  let activityName := activity a in
  match lookupIn activityName with
  | Some v => if truthy (actorUuid a) then assign activityName v result else result
  | None => result
  end.

(** getCombatEffects, on the [campingActivities] of the camping sheet. *)
Definition getCombatEffects (campingActivities : list CampingActivity)
  : gmap string Entry :=
  fold_left getCombatEffects_each campingActivities ∅.

End WithObjectPrototype.

Arguments Effect {Inherited} _.
Arguments InheritedValue {Inherited} _.
Arguments lookupIn {Inherited} _ _.
Arguments assign {Inherited} _ _ _.
Arguments getCombatEffects_each {Inherited} _ _ _.
Arguments getCombatEffects {Inherited} _ _.

End Camping.

(** ** Scenes (src/structures/scene.ts) *)

Module Scenes.

Record SceneSettlementData : Type := mkSceneSettlementData {
  settlementLevel : Z;
  settlementType : string;
  overcrowded : bool;
  secondaryTerritory : bool;
}.

(** A scene: its name, its id and its 'settlementData' flag. *)
Record Scene : Type := mkScene {
  sceneName : option string;
  sceneId : option string;
  settlementData : option SceneSettlementData;
}.

Definition getSceneData (scene : Scene) : Settlement.CurrentSceneData :=
  let sceneData := settlementData scene in
  {| Settlement.name := sceneName scene;
     Settlement.id := sceneId scene;
     Settlement.settlementLevel := default 1 (settlementLevel <$> sceneData);
     Settlement.settlementType := default "-" (settlementType <$> sceneData);
     Settlement.secondaryTerritory := default false (secondaryTerritory <$> sceneData);
     Settlement.overcrowded := default false (overcrowded <$> sceneData) |}.

(** [game.scenes], in order. *)
Definition getCapitalScene (scenes : list Scene) : option Scene :=
  List.find
    (fun scene => String.eqb (Settlement.settlementType (getSceneData scene)) "Capital")
    scenes.

Definition getSettlements (scenes : list Scene) : list Settlement.CurrentSceneData :=
  List.filter
    (fun scene =>
       let settlementType := Settlement.settlementType scene in
       String.eqb settlementType "Settlement" || String.eqb settlementType "Capital")
    (List.map getSceneData scenes).

End Scenes.

(** ** Further vocabulary *)

Module Vocabulary.

Import Resources.

(** The place of the kingdom a resource tag and a turn denote: unrest and the
    ruins have one value, the others one per turn; 'roll-resource-dice' and
    'resource-points' denote the same place. *)
Inductive Cell : Type :=
| UnrestCell
| RuinCell (key : RuinKey)
| ResourcePointsCell (turn : ResourceTurn)
| ResourceDiceCell (turn : ResourceTurn)
| CommodityCell (key : CommodityKey) (turn : ResourceTurn).

Definition cellOf (type : string) (turn : ResourceTurn) : option Cell :=
  if String.eqb type "unrest" then Some UnrestCell
  else if String.eqb type "resource-points" then Some (ResourcePointsCell turn)
  else if String.eqb type "roll-resource-dice" then Some (ResourcePointsCell turn)
  else if String.eqb type "resource-dice" then Some (ResourceDiceCell turn)
  else if String.eqb type "crime" then Some (RuinCell Crime)
  else if String.eqb type "decay" then Some (RuinCell Decay)
  else if String.eqb type "strife" then Some (RuinCell Strife)
  else if String.eqb type "corruption" then Some (RuinCell Corruption)
  else if String.eqb type "food" then Some (CommodityCell Food turn)
  else if String.eqb type "luxuries" then Some (CommodityCell Luxuries turn)
  else if String.eqb type "ore" then Some (CommodityCell Ore turn)
  else if String.eqb type "lumber" then Some (CommodityCell Lumber turn)
  else if String.eqb type "stone" then Some (CommodityCell Stone turn)
  else None.

(** The total consumption of a turn: armies, the kingdom's own consumption
    and the consumption of all settlements. *)
Definition totalConsumption (w : KingdomApp.World) : Z :=
  armies (consumption (KingdomApp.sheet w))
  + consumptionNow (consumption (KingdomApp.sheet w))
  + KingdomApp.settlementConsumption
      (KingdomApp.getSettlementData (KingdomApp.settlementScenes w)).

(** The unrest adjustUnrest commits. *)
Definition committedUnrest (w : KingdomApp.World) : Z :=
  let sum := Spec.unrestIncrease w + unrest (KingdomApp.sheet w) in
  if (20 <=? level (KingdomApp.sheet w)) && (0 <? sum) then 0 else sum.

End Vocabulary.

(** * Properties *)

Import Resources KingdomApp StructureBrowser Spec.

(** ** The commodity ledger *)

Lemma missingOf_max (v : Z) : missingOf v = Z.max 0 (- v).
Proof.
  unfold missingOf. destruct (Z.ltb_spec v 0); lia.
Qed.

Lemma append_nonempty (s t : string) : s <> "" -> s +:+ t <> "".
Proof.
  destruct s as [|a s]; [congruence | discriminate].
Qed.

(** C4. For non-negative [c] and [d], calculateNewValue returns [c + d] when
    gaining and [c - d] when losing without a limit, [max limit (c ± d)] with
    a limit; the shortfall of a loss is [max 0 (d - c)], gaining has none; the
    missing message is the shortfall's text when the turn is [Now] and the
    shortfall is positive, and it is empty for every operation on [Next]. *)
Theorem calculateNewValue_ledger
    (unslugify : string -> string) (c d : Z) (type : string) :
  0 <= c -> 0 <= d ->
  (forall turn, rvValue (calculateNewValue unslugify c d type turn gain None) = c + d)
  /\ (forall turn, rvValue (calculateNewValue unslugify c d type turn lose None) = c - d)
  /\ (forall turn limit,
        rvValue (calculateNewValue unslugify c d type turn gain (Some limit))
        = Z.max limit (c + d))
  /\ (forall turn limit,
        rvValue (calculateNewValue unslugify c d type turn lose (Some limit))
        = Z.max limit (c - d))
  /\ missingOf (c - d) = Z.max 0 (d - c)
  /\ missingOf (c + d) = 0
  /\ (forall limit,
        rvMissingMessage (calculateNewValue unslugify c d type Now lose limit)
        = if 0 <? Z.max 0 (d - c)
          then "Missing " +:+ pretty (Z.max 0 (d - c)) +:+ " " +:+ unslugify type
          else "")
  /\ (forall mode limit,
        rvMissingMessage (calculateNewValue unslugify c d type Next mode limit) = "")
  /\ (forall turn mode limit,
        rvMissingMessage (calculateNewValue unslugify c d type turn mode limit) <> ""
        <-> turn = Now /\ mode = lose /\ c < d).
Proof.
  intros Hc Hd.
  assert (Hlose : missingOf (c - d) = Z.max 0 (d - c))
    by (rewrite missingOf_max; f_equal; lia).
  assert (Hgain : missingOf (c + d) = 0)
    by (rewrite missingOf_max; lia).
  repeat split; try reflexivity; try assumption.
  - intros limit. unfold calculateNewValue. cbn [rvMissingMessage].
    rewrite Hlose, andb_true_r. reflexivity.
  - intros mode limit. unfold calculateNewValue. cbn [rvMissingMessage].
    rewrite andb_false_r. reflexivity.
  - destruct turn; [reflexivity|].
    revert H. unfold calculateNewValue. cbn [rvMissingMessage].
    rewrite andb_false_r. congruence.
  - destruct mode; [|reflexivity].
    revert H. unfold calculateNewValue. cbn [rvMissingMessage].
    rewrite Hgain. cbn. congruence.
  - destruct turn, mode; revert H; unfold calculateNewValue; cbn [rvMissingMessage];
      rewrite ?Hgain, ?Hlose, ?andb_false_r, ?andb_true_r; cbn [Z.ltb Z.compare];
      try congruence.
    destruct (Z.ltb_spec 0 (Z.max 0 (d - c))); [lia | congruence].
  - intros (-> & -> & Hlt). unfold calculateNewValue. cbn [rvMissingMessage].
    rewrite Hlose, andb_true_r.
    destruct (Z.ltb_spec 0 (Z.max 0 (d - c))); [|lia].
    discriminate.
Qed.

Lemma calculateNewValue_ledger_witness :
  0 <= 3 /\ 0 <= 5
  /\ rvValue (calculateNewValue (fun s => s) 3 5 "food" Now lose None) = 3 - 5
  /\ rvMissingMessage (calculateNewValue (fun s => s) 3 5 "food" Now lose None)
     = "Missing 2 food".
Proof.
  pose proof (calculateNewValue_ledger (fun s => s) 3 5 "food") as H.
  assert (H3 : 0 <= 3) by lia.
  assert (H5 : 0 <= 5) by lia.
  destruct (H H3 H5) as (_ & Hl & _ & _ & _ & _ & Hm & _).
  split; [exact H3|]. split; [exact H5|].
  split; [apply Hl|]. rewrite Hm. reflexivity.
Defined.

(** ** The resource-type resolver *)

Ltac case_tag type :=
  match goal with
  | |- context [String.eqb type ?s] => destruct (String.eqb_spec type s) as [->|?]
  end.

Ltac in_tags := cbn; repeat (first [left; reflexivity | right]).

Ltac not_in_tags := cbn; intuition congruence.

Lemma getCurrentValue_cases (k : Kingdom) (type : string) (turn : ResourceTurn) :
  (In type RolledResources /\ exists x, getCurrentValue k type turn = Ok x)
  \/ (~ In type RolledResources
      /\ getCurrentValue k type turn = Throw ("Unhandled type " +:+ type)).
Proof.
  unfold getCurrentValue, readCommodityKey, readRuinKey.
  repeat (case_tag type; [left; split; [in_tags | eexists; reflexivity] | ]);
    cbn [orb].
  right. split; [not_in_tags | reflexivity].
Qed.

Lemma createUpdate_cases (k : Kingdom) (type : string) (turn : ResourceTurn) (v : Z) :
  (In type RolledResources /\ exists u, createUpdate k type turn v = Ok u)
  \/ (~ In type RolledResources
      /\ createUpdate k type turn v = Throw ("Unhandled type " +:+ type)).
Proof.
  unfold createUpdate, writeCommodityKey, writeRuinKey.
  repeat (case_tag type; [left; split; [in_tags | eexists; reflexivity] | ]);
    cbn [orb].
  right. split; [not_in_tags | reflexivity].
Qed.

(** Writing a value and reading the same tag and turn back gives the value. *)
Lemma read_after_write (k : Kingdom) (type : string) (turn : ResourceTurn) (v : Z) :
  In type RolledResources ->
  exists u, createUpdate k type turn v = Ok u
            /\ getCurrentValue (mergeKingdom k u) type turn = Ok v.
Proof.
  cbn. intros H.
  repeat (destruct H as [<-|H];
          [eexists; split; [reflexivity | destruct turn; reflexivity] | ]).
  destruct H.
Qed.

(** C7. getCurrentValue and createUpdate succeed on exactly the tags of
    [RolledResources] and throw the unhandled-type error on every other tag;
    a value written under a tag is the value read back under it; for unrest
    and the four ruins the turn changes neither the value read nor the update
    written; and 'roll-resource-dice' reads and writes the resource points,
    as 'resource-points' does. *)
Theorem resolver_lock_step (k : Kingdom) (type : string) (v : Z) :
  (forall turn,
      In type RolledResources <-> exists x, getCurrentValue k type turn = Ok x)
  /\ (forall turn,
      In type RolledResources <-> exists u, createUpdate k type turn v = Ok u)
  /\ (forall turn,
      ~ In type RolledResources ->
      getCurrentValue k type turn = Throw ("Unhandled type " +:+ type)
      /\ createUpdate k type turn v = Throw ("Unhandled type " +:+ type))
  /\ (forall turn,
      In type RolledResources ->
      exists u, createUpdate k type turn v = Ok u
                /\ getCurrentValue (mergeKingdom k u) type turn = Ok v)
  /\ (In type turnlessResources ->
      getCurrentValue k type Now = getCurrentValue k type Next
      /\ createUpdate k type Now v = createUpdate k type Next v)
  /\ (forall turn,
      getCurrentValue k "roll-resource-dice" turn = Ok (atTurn turn (resourcePoints k))
      /\ getCurrentValue k "resource-points" turn = Ok (atTurn turn (resourcePoints k))
      /\ createUpdate k "roll-resource-dice" turn v
         = createUpdate k "resource-points" turn v
      /\ createUpdate k "resource-points" turn v
         = Ok (mkPartial None None None
                 (Some (withTurn turn v (resourcePoints k))) None None None)).
Proof.
  split; [|split; [|split; [|split; [|split]]]].
  - intros turn.
    destruct (getCurrentValue_cases k type turn) as [[Hin Hok]|[Hout Hthrow]].
    + tauto.
    + split; [tauto|]. intros [x Hx]. congruence.
  - intros turn.
    destruct (createUpdate_cases k type turn v) as [[Hin Hok]|[Hout Hthrow]].
    + tauto.
    + split; [tauto|]. intros [x Hx]. congruence.
  - intros turn Hout. split.
    + destruct (getCurrentValue_cases k type turn) as [[Hin _]|[_ Hthrow]]; tauto.
    + destruct (createUpdate_cases k type turn v) as [[Hin _]|[_ Hthrow]]; tauto.
  - intros turn. apply read_after_write.
  - cbn. intros H.
    repeat (destruct H as [<-|H]; [split; reflexivity | ]).
    destruct H.
  - intros turn. repeat split.
Qed.

Lemma resolver_lock_step_witness :
  In "crime" turnlessResources
  /\ getCurrentValue Samples.emptyKingdom "crime" Now
     = getCurrentValue Samples.emptyKingdom "crime" Next
  /\ createUpdate Samples.emptyKingdom "crime" Now 4
     = createUpdate Samples.emptyKingdom "crime" Next 4.
Proof.
  assert (Hin : In "crime" turnlessResources) by in_tags.
  split; [exact Hin|].
  exact (proj1 (proj2 (proj2 (proj2 (proj2
           (resolver_lock_step Samples.emptyKingdom "crime" 4))))) Hin).
Defined.

(** ** The building-proficiency gate *)

Lemma meetsRequirement_satisfied (k : Kingdom) (r : ConstructionSkill) :
  meetsRequirement k r = true <-> requirementSatisfied k r.
Proof.
  unfold meetsRequirement, requirementSatisfied.
  destruct (skillRanks k !! skill r) as [rank|] eqn:Hrank.
  - rewrite Z.leb_le. split.
    + intros Hle. exists rank. split; [reflexivity | exact Hle].
    + intros (rank' & Heq & Hle). injection Heq as <-. exact Hle.
  - split; [discriminate|]. intros (rank & Heq & _). discriminate.
Qed.

(** C5, as the code has it. checkProficiency returns true if and only if the
    structure has no skill requirements or at least one of its skill
    requirements is satisfied by the kingdom's recorded rank: the listed
    skills are alternatives. *)
Theorem checkProficiency_some (structure : Structure) (kingdom : Kingdom) :
  checkProficiency structure kingdom = true
  <-> requirements structure = [] \/ someRequirementSatisfied structure kingdom.
Proof.
  unfold checkProficiency, someRequirementSatisfied, requirements.
  destruct (construction structure) as [c|]; [|tauto].
  rewrite orb_true_iff, Nat.eqb_eq, length_zero_iff_nil, existsb_exists.
  split; (intros [Hnil|(r & Hin & Hr)]; [left; exact Hnil | right]);
    exists r; (split; [exact Hin|]); apply meetsRequirement_satisfied; exact Hr.
Qed.

(** C5, as the specification has it, fails: the theater asks for arts
    (trained) or magic (expert); a kingdom trained in arts and untrained in
    magic passes the gate though its magic requirement is not satisfied. *)
Lemma checkProficiency_not_every :
  ~ (checkProficiency Samples.theater Samples.artsKingdom = true
     <-> requirements Samples.theater = []
         \/ everyRequirementSatisfied Samples.theater Samples.artsKingdom).
Proof.
  intros [Hto _].
  destruct (Hto eq_refl) as [Hnil|Hall]; [discriminate Hnil|].
  destruct (Hall (mkConstructionSkill "magic" (Some 2))) as (rank & Hrank & Hle).
  - right. left. reflexivity.
  - vm_compute in Hrank. injection Hrank as <-. cbn in Hle. lia.
Qed.

(** ** Turn steps *)

(** Unfolds a turn step applied to a world down to the world it returns. *)
Ltac run_step :=
  unfold mbind, mret, App_bind, App_ret, when, update, saveKingdom, toMessage,
    createChatMessage, roll, getKingdom, getAllSettlementSceneDataAndStructures,
    getStringSetting_kingdomEventRollMode;
  cbn [fst snd sheet settlementScenes kingdomEventRollMode chat dice rolled
       formula total].

(** C8. With a non-negative counter [t] of turns without event, checkForEvent
    rolls 1d20 against the DC [max 1 (16 - 5 t)], which is 16, 11, 6, 1 for
    [t] = 0, 1, 2, 3 and never below 1; a total of at least the DC sets the
    counter to 0 and posts the event message, a lower total adds exactly 1 to
    the counter and posts no event message. *)
Theorem checkForEvent_dc (w : World) :
  let t := turnsWithoutEvent (sheet w) in
  let dc := calculateEventDC t in
  let r := dice w (rolled w) "1d20" in
  let w' := snd (checkForEvent w) in
  let rollMessage :=
    RollMessage "1d20" r ("Checking for Event on DC " +:+ pretty dc)
      (Some (kingdomEventRollMode w)) in
  0 <= t ->
  dc = Z.max 1 (16 - 5 * t)
  /\ 1 <= dc
  /\ (calculateEventDC 0 = 16 /\ calculateEventDC 1 = 11
      /\ calculateEventDC 2 = 6 /\ calculateEventDC 3 = 1)
  /\ (dc <= r ->
      sheet w' = mergeKingdom (sheet w) (mkPartial None (Some 0) None None None None None)
      /\ turnsWithoutEvent (sheet w') = 0
      /\ chat w' = (chat w ++ [rollMessage;
                               EventOccurs "An event occurs, roll a Kingdom Event!"
                                 (kingdomEventRollMode w)])%list)
  /\ (r < dc ->
      sheet w' = mergeKingdom (sheet w)
                   (mkPartial None (Some (t + 1)) None None None None None)
      /\ turnsWithoutEvent (sheet w') = t + 1
      /\ chat w' = (chat w ++ [rollMessage])%list).
Proof.
  intros t dc r w' rollMessage Ht.
  split; [unfold dc, calculateEventDC; f_equal; lia|].
  split; [unfold dc, calculateEventDC; lia|].
  split; [repeat split|].
  subst w'. unfold checkForEvent. run_step. fold t. fold dc. fold r.
  split; intros Hr.
  - destruct (Z.leb_spec dc r); [|lia]. cbn.
    rewrite <- app_assoc. repeat split.
  - destruct (Z.leb_spec dc r); [lia|]. cbn. repeat split.
Qed.

Lemma checkForEvent_dc_witness :
  0 <= turnsWithoutEvent (sheet (Samples.worldOf Samples.emptyKingdom [] 16))
  /\ calculateEventDC
       (turnsWithoutEvent (sheet (Samples.worldOf Samples.emptyKingdom [] 16))) = 16
  /\ turnsWithoutEvent
       (sheet (snd (checkForEvent (Samples.worldOf Samples.emptyKingdom [] 16)))) = 0.
Proof.
  assert (H0 : 0 <= turnsWithoutEvent (sheet (Samples.worldOf Samples.emptyKingdom [] 16)))
    by (cbn; lia).
  destruct (checkForEvent_dc (Samples.worldOf Samples.emptyKingdom [] 16) H0)
    as (_ & _ & (H16 & _) & Hhit & _).
  split; [exact H0|]. split; [exact H16|].
  apply Hhit. vm_compute. discriminate.
Defined.

(** C10, as the code has it. reduceUnrest rolls 1d20; on a total above 10 it
    writes [max 0 (unrest - 1)] to unrest and nothing else, which is not
    negative; on a total of 10 or less it writes nothing, so the kingdom
    changes only on a total above 10, and the unrest is then the stored one:
    it is not negative when the stored unrest was not negative. *)
Theorem reduceUnrest_above_ten (w : World) :
  let r := dice w (rolled w) "1d20" in
  let w' := snd (reduceUnrest w) in
  (10 < r ->
   sheet w' = mergeKingdom (sheet w)
                (mkPartial (Some (Z.max 0 (unrest (sheet w) - 1)))
                   None None None None None None)
   /\ unrest (sheet w') = Z.max 0 (unrest (sheet w) - 1)
   /\ 0 <= unrest (sheet w'))
  /\ (r <= 10 -> sheet w' = sheet w)
  /\ (sheet w' <> sheet w -> 10 < r)
  /\ (0 <= unrest (sheet w) -> 0 <= unrest (sheet w')).
Proof.
  intros r w'.
  subst w'. unfold reduceUnrest. run_step. fold r.
  destruct (Z.ltb_spec 10 r) as [Hr|Hr]; cbn.
  - repeat split; try lia.
  - repeat split; try lia. intros Hne. congruence.
Qed.

Lemma reduceUnrest_above_ten_witness :
  0 <= unrest (sheet (Samples.worldOf Samples.artsKingdom [] 5))
  /\ 0 <= unrest (sheet (snd (reduceUnrest (Samples.worldOf Samples.artsKingdom [] 5)))).
Proof.
  assert (H0 : 0 <= unrest (sheet (Samples.worldOf Samples.artsKingdom [] 5)))
    by (cbn; lia).
  split; [exact H0|].
  exact (proj2 (proj2 (proj2
           (reduceUnrest_above_ten (Samples.worldOf Samples.artsKingdom [] 5)))) H0).
Defined.

(** C10, as the specification has it, fails: a kingdom whose stored unrest
    is -3, as the lose-unrest button can leave it, still has an unrest of -3
    after reduceUnrest rolls a 5, so the resulting unrest is not in all cases
    non-negative. *)
Lemma reduceUnrest_keeps_negative_unrest :
  let k := mergeKingdom Samples.emptyKingdom
             (mkPartial (Some (-3)) None None None None None None) in
  let w := Samples.worldOf k [] 5 in
  dice w (rolled w) "1d20" = 5
  /\ unrest (sheet (snd (reduceUnrest w))) = -3
  /\ ~ (forall w, 0 <= unrest (sheet (snd (reduceUnrest w)))).
Proof.
  intros k w. split; [reflexivity|]. split; [reflexivity|].
  intros Hall. specialize (Hall w). vm_compute in Hall. apply Hall. reflexivity.
Qed.

(** ** Merging settlements across locations *)

Section SettlementFold.

Import Settlement.

Lemma commodities_ext (c c' : Commodities) :
  food c = food c' -> luxuries c = luxuries c' -> ore c = ore c' ->
  lumber c = lumber c' -> stone c = stone c' -> c = c'.
Proof. destruct c, c'; cbn; congruence. Qed.

Lemma totals_ext (a b : SettlementTotals) :
  leadershipActivityNumber a = leadershipActivityNumber b ->
  settlementConsumption a = settlementConsumption b ->
  totalStorage a = totalStorage b ->
  unlockedActivities a = unlockedActivities b ->
  a = b.
Proof. destruct a, b; cbn; congruence. Qed.

Ltac sets_eq :=
  rewrite ?(left_id_L ∅ (∪)), ?(right_id_L ∅ (∪)), ?(assoc_L (∪));
  first [reflexivity | apply (comm_L (∪))].

Ltac totals_eq :=
  apply totals_ext;
  [ cbn; lia | cbn; lia | apply commodities_ext; cbn; lia | cbn; sets_eq ].

Lemma reduce_comm (a b : SettlementTotals) :
  getSettlementData_reduce a b = getSettlementData_reduce b a.
Proof. totals_eq. Qed.

Lemma reduce_assoc (a b c : SettlementTotals) :
  getSettlementData_reduce (getSettlementData_reduce a b) c
  = getSettlementData_reduce a (getSettlementData_reduce b c).
Proof. totals_eq. Qed.

(** The initial accumulator is neutral next to any accumulator whose
    leadership-activity number is at least 2. *)
Lemma reduce_init_absorb (a z : SettlementTotals) :
  2 <= leadershipActivityNumber a ->
  getSettlementData_reduce a (getSettlementData_reduce getSettlementData_init z)
  = getSettlementData_reduce a z.
Proof. intros Ha. totals_eq. Qed.

Lemma reduce_init_r (a : SettlementTotals) :
  2 <= leadershipActivityNumber a ->
  getSettlementData_reduce a getSettlementData_init = a.
Proof. intros Ha. totals_eq. Qed.

Lemma reduce_leadership_ge (a b : SettlementTotals) :
  2 <= leadershipActivityNumber a ->
  2 <= leadershipActivityNumber (getSettlementData_reduce a b).
Proof. cbn. lia. Qed.

Lemma fold_reduce_from (l : list SettlementTotals) (a : SettlementTotals) :
  2 <= leadershipActivityNumber a ->
  fold_left getSettlementData_reduce l a
  = getSettlementData_reduce a (fold_left getSettlementData_reduce l getSettlementData_init).
Proof.
  revert a. induction l as [|x l IH]; intros a Ha; cbn [fold_left].
  - symmetry. apply reduce_init_r. exact Ha.
  - rewrite (IH (getSettlementData_reduce a x)) by (apply reduce_leadership_ge; exact Ha).
    rewrite (IH (getSettlementData_reduce getSettlementData_init x))
      by (apply reduce_leadership_ge; cbn; lia).
    rewrite !reduce_assoc. symmetry. apply reduce_init_absorb. exact Ha.
Qed.

Lemma fold_reduce_perm (l l' : list SettlementTotals) :
  Permutation l l' ->
  forall a, fold_left getSettlementData_reduce l a = fold_left getSettlementData_reduce l' a.
Proof.
  induction 1 as [|x l l' _ IH|x y l|l l' l'' _ IH1 _ IH2]; intros a; cbn [fold_left].
  - reflexivity.
  - apply IH.
  - f_equal. rewrite !reduce_assoc. f_equal. apply reduce_comm.
  - rewrite IH1. apply IH2.
Qed.

Lemma getSettlementData_leadership_ge (l : list SettlementSceneData) :
  2 <= leadershipActivityNumber (getSettlementData l).
Proof.
  unfold getSettlementData.
  rewrite fold_reduce_from by (cbn; lia). cbn. lia.
Qed.

Lemma fold_max_from (x y : Z) (l : list Z) :
  fold_right Z.max (Z.max x y) l = Z.max y (fold_right Z.max x l).
Proof.
  induction l as [|z l IH]; cbn [fold_right]; lia.
Qed.

(** The fields of the fold over an arbitrary starting accumulator. *)
Lemma fold_reduce_fields (l : list SettlementSceneData) (a : SettlementTotals) :
  let r := fold_left getSettlementData_reduce (List.map getSettlementData_map l) a in
  leadershipActivityNumber r
  = fold_right Z.max (leadershipActivityNumber a)
      (List.map (fun s => if leadershipActivityBonus (settlement s) then 3 else 2) l)
  /\ settlementConsumption r
     = settlementConsumption a + sumZ (List.map (fun s => consumption (settlement s)) l)
  /\ (forall key,
        atCommodity key (totalStorage r)
        = atCommodity key (totalStorage a)
          + sumZ (List.map (fun s => atCommodity key (storage (settlement s))) l))
  /\ unlockedActivities r
     = unlockedActivities a
       ∪ ⋃ (List.map (fun s => list_to_set (unlockActivities (settlement s))) l).
Proof.
  revert a. induction l as [|s l IH]; intros a; cbn [List.map fold_left fold_right sumZ].
  - cbn. repeat split; try lia; try (intros key; lia). sets_eq.
  - destruct (IH (getSettlementData_reduce a (getSettlementData_map s)))
      as (Hn & Hc & Hs & Hu).
    cbn zeta. rewrite Hn, Hc, Hu. clear Hn Hc Hu.
    split; [|split; [|split]].
    + cbn [getSettlementData_reduce getSettlementData_map leadershipActivityNumber].
      apply fold_max_from.
    + cbn. unfold sumZ. lia.
    + intros key. rewrite Hs. destruct key; cbn; unfold sumZ; lia.
    + cbn [getSettlementData_reduce getSettlementData_map unlockedActivities union_list
           fold_right]. sets_eq.
Qed.

End SettlementFold.

Lemma getSettlementData_app (l1 l2 : list Settlement.SettlementSceneData) :
  getSettlementData (l1 ++ l2)
  = getSettlementData_reduce (getSettlementData l1) (getSettlementData l2).
Proof.
  unfold getSettlementData at 1. rewrite List.map_app, fold_left_app.
  apply fold_reduce_from. apply getSettlementData_leadership_ge.
Qed.

(** C9. getSettlementData folds the per-settlement records from the
    accumulator (2, 0, no storage, no activities): the leadership-activity
    number is the maximum, consumption and each storage field are sums, the
    unlocked activities are the union.  The empty list gives the accumulator;
    the result is the same for every reordering of the list and for every
    grouping of it, the merge being commutative and associative. *)
Theorem getSettlementData_merge :
  getSettlementData [] = getSettlementData_init
  /\ getSettlementData_init
     = mkSettlementTotals 2 0 (mkCommodities 0 0 0 0 0) ∅
  /\ (forall l,
        leadershipActivityNumber (getSettlementData l)
        = fold_right Z.max 2
            (List.map (fun s => if Settlement.leadershipActivityBonus (Settlement.settlement s)
                                then 3 else 2) l)
        /\ settlementConsumption (getSettlementData l)
           = sumZ (List.map (fun s => Settlement.consumption (Settlement.settlement s)) l)
        /\ (forall key,
              atCommodity key (totalStorage (getSettlementData l))
              = sumZ (List.map (fun s => atCommodity key
                                           (Settlement.storage (Settlement.settlement s))) l))
        /\ unlockedActivities (getSettlementData l)
           = ⋃ (List.map (fun s => list_to_set
                                     (Settlement.unlockActivities (Settlement.settlement s))) l))
  /\ (forall l l', Permutation l l' -> getSettlementData l = getSettlementData l')
  /\ (forall l1 l2,
        getSettlementData (l1 ++ l2)
        = getSettlementData_reduce (getSettlementData l1) (getSettlementData l2))
  /\ (forall l1 l2 l3,
        getSettlementData_reduce (getSettlementData (l1 ++ l2)) (getSettlementData l3)
        = getSettlementData_reduce (getSettlementData l1) (getSettlementData (l2 ++ l3)))
  /\ (forall a b, getSettlementData_reduce a b = getSettlementData_reduce b a)
  /\ (forall a b c,
        getSettlementData_reduce (getSettlementData_reduce a b) c
        = getSettlementData_reduce a (getSettlementData_reduce b c)).
Proof.
  split; [reflexivity|]. split; [reflexivity|].
  split; [|split; [|split; [|split; [|split]]]].
  - intros l.
    destruct (fold_reduce_fields l getSettlementData_init) as (Hn & Hc & Hs & Hu).
    fold (getSettlementData l) in Hn, Hc, Hs, Hu.
    split; [exact Hn|]. split; [rewrite Hc; cbn; lia|].
    split; [intros key; rewrite Hs; destruct key; cbn; lia|].
    rewrite Hu. cbn. apply (left_id_L ∅ (∪)).
  - intros l l' Hperm. unfold getSettlementData.
    apply fold_reduce_perm. apply Permutation_map. exact Hperm.
  - apply getSettlementData_app.
  - intros l1 l2 l3. rewrite !getSettlementData_app. apply reduce_assoc.
  - apply reduce_comm.
  - apply reduce_assoc.
Qed.

Lemma getSettlementData_merge_witness :
  let a := Settlement.mkSettlementSceneData
             (Settlement.mkSettlementData true 2 (mkCommodities 1 0 0 0 0) ["a"])
             (Settlement.mkCurrentSceneData None None 1 "Capital" false false) in
  let b := Settlement.mkSettlementSceneData
             (Settlement.mkSettlementData false 3 (mkCommodities 0 2 0 0 0) ["b"])
             (Settlement.mkCurrentSceneData None None 1 "Settlement" true false) in
  Permutation [a; b] [b; a]
  /\ getSettlementData [a; b] = getSettlementData [b; a].
Proof.
  intros a b.
  assert (Hperm : Permutation [a; b] [b; a]) by apply perm_swap.
  split; [exact Hperm|].
  exact (proj1 (proj2 (proj2 (proj2 getSettlementData_merge))) _ _ Hperm).
Defined.

(** ** EndTurn *)

(** What endTurn writes, in every world. *)
Lemma endTurn_writes (getSizeData : Z -> KingdomSizeData) (w : World) :
  let k := sheet w in
  let k' := sheet (snd (endTurn getSizeData w)) in
  let capacity := storageCapacity getSizeData w in
  resourceDice k' = mkTurns (next (resourcePoints k)) 0
  /\ resourcePoints k' = mkTurns (next (resourcePoints k)) 0
  /\ consumption k'
     = mkConsumption (consumptionNext (consumption k)) 0 (armies (consumption k))
  /\ (forall key,
        atCommodity key (now (commodities k'))
        = Z.min (atCommodity key capacity)
            (atCommodity key (now (commodities k))
             + atCommodity key (next (commodities k)))
        /\ atCommodity key (next (commodities k')) = 0)
  /\ unrest k' = unrest k /\ ruin k' = ruin k
  /\ turnsWithoutEvent k' = turnsWithoutEvent k.
Proof.
  unfold endTurn, getCapacity, storageCapacity. run_step. cbn.
  repeat split; destruct key; reflexivity.
Qed.

(** C1, at a kingdom with one resource die and five resource points staged
    for the next turn: endTurn leaves five resource dice for the new turn,
    the staged resource points, where the staged resource dice were one. *)
Theorem endTurn_resourceDice_from_resourcePoints :
  let w := Samples.worldOf Samples.stagedKingdom [] 0 in
  let w' := snd (endTurn Samples.d6SizeData w) in
  next (resourceDice (sheet w)) = 1
  /\ next (resourcePoints (sheet w)) = 5
  /\ now (resourceDice (sheet w')) = 5
  /\ now (resourceDice (sheet w')) <> next (resourceDice (sheet w)).
Proof.
  cbn. repeat split. discriminate.
Qed.

(** ** CollectResources *)

Lemma insiderTradingResources_hasFeat (k : Kingdom) :
  (hasFeat "Insider Trading" k -> insiderTradingResources (feats k) (bonusFeats k) = 1)
  /\ (~ hasFeat "Insider Trading" k
      -> insiderTradingResources (feats k) (bonusFeats k) = 0).
Proof.
  unfold insiderTradingResources, hasFeat.
  destruct (existsb _ (feats k)) eqn:Hf; cbn [orb].
  - apply existsb_exists in Hf as (f & Hin & Heq). apply String.eqb_eq in Heq.
    split; [reflexivity|]. intros Hno. exfalso. apply Hno. left. exists f. tauto.
  - destruct (existsb _ (bonusFeats k)) eqn:Hb.
    + apply existsb_exists in Hb as (f & Hin & Heq). apply String.eqb_eq in Heq.
      split; [reflexivity|]. intros Hno. exfalso. apply Hno. right. exists f. tauto.
    + split; [|reflexivity].
      intros [(f & Hin & Heq)|(f & Hin & Heq)]; exfalso.
      * assert (existsb (fun f => String.eqb (featId f) "Insider Trading") (feats k) = true);
          [|congruence].
        apply existsb_exists. exists f. split; [exact Hin|]. apply String.eqb_eq, Heq.
      * assert (existsb (fun f => String.eqb (bonusFeatId f) "Insider Trading")
                  (bonusFeats k) = true); [|congruence].
        apply existsb_exists. exists f. split; [exact Hin|]. apply String.eqb_eq, Heq.
Qed.

(** What collectResources does, in every world: the number of dice it rolls
    and the commodities it writes. *)
Lemma collectResources_runs
    (getSizeData : Z -> KingdomSizeData) (getLevelData : Z -> LevelData.t) (w : World) :
  let k := sheet w in
  let w' := snd (collectResources getSizeData getLevelData w) in
  let capacity := storageCapacity getSizeData w in
  let yield := calculateCommoditiesThisTurn k in
  rollsResourceDice
    (LevelData.resourceDice (getLevelData (size k)) + now (resourceDice k)
     + insiderTradingResources (feats k) (bonusFeats k))
    (resourceDieSize (getSizeData (size k))) w w'
  /\ (forall key, key <> Food ->
        atCommodity key (now (commodities (sheet w')))
        = Z.min (atCommodity key capacity) (atCommodity key yield))
  /\ food (now (commodities (sheet w'))) = food (now (commodities k))
  /\ next (commodities (sheet w')) = next (commodities k).
Proof.
  unfold collectResources, rollResourceDice, getCapacity, storageCapacity,
    rollsResourceDice.
  run_step. cbn.
  split; [|split; [|split]]; try reflexivity.
  - split; [reflexivity|]. split; [|split; reflexivity].
    eexists. rewrite <- app_assoc. reflexivity.
  - intros key Hkey. destruct key; try reflexivity. congruence.
Qed.

(** C2, at a kingdom with three ore in store, two mines and a capacity of
    four: collectResources leaves two ore, the yield alone, where the stored
    ore plus the yield, clamped to the capacity, is four. *)
Theorem collectResources_drops_stored_ore :
  let w := Samples.worldOf Samples.miningKingdom [] 3 in
  let w' := snd (collectResources Samples.d6SizeData (Samples.levelDataOf 5) w) in
  ore (now (commodities (sheet w))) = 3
  /\ ore (calculateCommoditiesThisTurn (sheet w)) = 2
  /\ ore (storageCapacity Samples.d6SizeData w) = 4
  /\ ore (now (commodities (sheet w'))) = 2
  /\ ore (now (commodities (sheet w')))
     <> Z.min (ore (storageCapacity Samples.d6SizeData w))
          (ore (now (commodities (sheet w)))
           + ore (calculateCommoditiesThisTurn (sheet w))).
Proof.
  cbn. repeat split. discriminate.
Qed.

(** C3, as the code has it. For a kingdom whose size rolls d6, with two
    stored resource dice, collectResources rolls the base resource dice of
    its table entry plus 2 when the kingdom has no Insider Trading feat and
    exactly one die more when it has one, adds the total to
    [resourcePoints.now] and resets [resourceDice.now] to 0; the roll is 2d6
    when the base is 0. *)
Theorem collectResources_small_kingdom
    (getSizeData : Z -> KingdomSizeData) (getLevelData : Z -> LevelData.t) (w : World) :
  let k := sheet w in
  let base := LevelData.resourceDice (getLevelData (size k)) in
  let w' := snd (collectResources getSizeData getLevelData w) in
  resourceDieSize (getSizeData (size k)) = "d6" ->
  now (resourceDice k) = 2 ->
  (~ hasFeat "Insider Trading" k -> rollsResourceDice (base + 2) "d6" w w')
  /\ (hasFeat "Insider Trading" k -> rollsResourceDice (base + 2 + 1) "d6" w w')
  /\ (~ hasFeat "Insider Trading" k -> base = 0 -> rollsResourceDice 2 "d6" w w').
Proof.
  intros k base w' Hdie Hdice.
  destruct (collectResources_runs getSizeData getLevelData w) as (Hrolls & _).
  fold k in Hrolls. fold w' in Hrolls. fold base in Hrolls.
  rewrite Hdie, Hdice in Hrolls.
  destruct (insiderTradingResources_hasFeat k) as (Hhas & Hnot).
  split; [|split].
  - intros Hno. rewrite (Hnot Hno), Z.add_0_r in Hrolls. exact Hrolls.
  - intros Hyes. rewrite (Hhas Hyes) in Hrolls. exact Hrolls.
  - intros Hno Hbase. rewrite (Hnot Hno), Hbase in Hrolls. exact Hrolls.
Qed.

Lemma collectResources_small_kingdom_witness :
  let w := Samples.worldOf (Samples.twoDiceKingdom []) [] 3 in
  let w' := snd (collectResources Samples.d6SizeData (Samples.levelDataOf 5) w) in
  resourceDieSize (Samples.d6SizeData (size (sheet w))) = "d6"
  /\ now (resourceDice (sheet w)) = 2
  /\ ~ hasFeat "Insider Trading" (sheet w)
  /\ rollsResourceDice 7 "d6" w w'.
Proof.
  intros w w'.
  assert (Hdie : resourceDieSize (Samples.d6SizeData (size (sheet w))) = "d6")
    by reflexivity.
  assert (Hdice : now (resourceDice (sheet w)) = 2) by reflexivity.
  assert (Hno : ~ hasFeat "Insider Trading" (sheet w)).
  { intros [(f & Hin & _)|(f & Hin & _)]; destruct Hin. }
  split; [exact Hdie|]. split; [exact Hdice|]. split; [exact Hno|].
  exact (proj1 (collectResources_small_kingdom
                  Samples.d6SizeData (Samples.levelDataOf 5) w Hdie Hdice) Hno).
Defined.

(** C3, as the specification has it, fails: with a table granting five base
    resource dice, the kingdom with two stored dice and no feats rolls 7d6,
    not 2d6. *)
Lemma collectResources_not_two_dice :
  let w := Samples.worldOf (Samples.twoDiceKingdom []) [] 3 in
  let w' := snd (collectResources Samples.d6SizeData (Samples.levelDataOf 5) w) in
  resourceDieSize (Samples.d6SizeData (size (sheet w))) = "d6"
  /\ now (resourceDice (sheet w)) = 2
  /\ ~ hasFeat "Insider Trading" (sheet w)
  /\ ~ rollsResourceDice 2 "d6" w w'.
Proof.
  intros w w'.
  split; [reflexivity|]. split; [reflexivity|]. split.
  - intros [(f & Hin & _)|(f & Hin & _)]; destruct Hin.
  - intros (_ & (summary & Hchat) & _).
    vm_compute in Hchat. discriminate Hchat.
Qed.

(** ** AdjustUnrest *)

(** The unrest adjustUnrest commits, in every world: the turn's increase
    added to the current unrest, or 0 when the kingdom is level 20 and that
    sum is positive. *)
Lemma adjustUnrest_commits (w : World) :
  let k := sheet w in
  let sum := unrestIncrease w + unrest k in
  sheet (snd (adjustUnrest w))
  = mergeKingdom k
      (mkPartial (Some (if (20 <=? level k) && (0 <? sum) then 0 else sum))
         None None None None None None).
Proof.
  unfold adjustUnrest, unrestIncrease. run_step.
  destruct ((20 <=? level (sheet w)) && _) eqn:Hsuppress; run_step.
  - cbn [Z.ltb Z.leb Z.compare].
    destruct (calculateAnarchy _ _ <=? 0); reflexivity.
  - match goal with |- context [0 <? ?s] => destruct (0 <? s) end;
      match goal with |- context [10 <=? ?s] => destruct (10 <=? s) end;
      run_step;
      repeat match goal with
             | |- context [if ?b then _ else _] => destruct b; run_step
             end;
      reflexivity.
Qed.

(** C6, at a level 20 kingdom at war with 5 unrest and no settlements: the
    turn's increase is 1, and adjustUnrest commits an unrest of 0 where the
    unrest before the step was 5. *)
Theorem adjustUnrest_wipes_unrest :
  let w := Samples.worldOf Samples.envyKingdom [] 3 in
  let w' := snd (adjustUnrest w) in
  level (sheet w) = 20
  /\ unrestIncrease w = 1
  /\ unrest (sheet w) = 5
  /\ unrest (sheet w') = 0
  /\ unrest (sheet w') <> unrest (sheet w).
Proof.
  cbn. repeat split. discriminate.
Qed.

(** * Further properties *)

Import KingdomSheet ResourceLimits BuildingCost Vocabulary.

(** ** PayConsumption *)



(** X2. When the total consumption is zero or negative, payConsumption does
    nothing at all: no message, no roll, no write. *)
Theorem payConsumption_nothing_to_pay (w : World) :
  totalConsumption w <= 0 -> snd (payConsumption w) = w.
Proof.
  intros Hle. unfold totalConsumption in Hle.
  unfold payConsumption. run_step.
  destruct (Z.ltb_spec 0
              (armies (consumption (sheet w)) + consumptionNow (consumption (sheet w))
               + settlementConsumption (getSettlementData (settlementScenes w))));
    [lia|].
  reflexivity.
Qed.

Lemma payConsumption_nothing_to_pay_witness :
  totalConsumption (Samples.worldOf Samples.emptyKingdom [] 0) <= 0
  /\ snd (payConsumption (Samples.worldOf Samples.emptyKingdom [] 0))
     = Samples.worldOf Samples.emptyKingdom [] 0.
Proof.
  assert (Hle : totalConsumption (Samples.worldOf Samples.emptyKingdom [] 0) <= 0)
    by (vm_compute; discriminate).
  split; [exact Hle|].
  exact (payConsumption_nothing_to_pay _ Hle).
Defined.

(** ** EndTurn, run twice *)

(** X3. After endTurn every commodity in store is at most the storage
    capacity, and a second endTurn right after the first leaves the
    commodities as the first left them while it empties the current-turn
    resource points, resource dice and consumption. *)
Theorem endTurn_twice (getSizeData : Z -> KingdomSizeData) (w : World) :
  let w1 := snd (endTurn getSizeData w) in
  let w2 := snd (endTurn getSizeData w1) in
  (forall key,
      atCommodity key (now (commodities (sheet w1)))
      <= atCommodity key (storageCapacity getSizeData w))
  /\ commodities (sheet w2) = commodities (sheet w1)
  /\ resourcePoints (sheet w2) = mkTurns 0 0
  /\ resourceDice (sheet w2) = mkTurns 0 0
  /\ consumption (sheet w2) = mkConsumption 0 0 (armies (consumption (sheet w))).
Proof.
  unfold endTurn, getCapacity, storageCapacity. run_step. cbn.
  split; [intros key; destruct key; cbn; lia|].
  split; [|repeat split].
  f_equal. apply commodities_ext; cbn; lia.
Qed.

(** ** CheckForEvent, after three turns without event *)

(** X4. The DC of the event check never rises as turns pass without event:
    for all counters [a <= b] the DC at [b] is at most the DC at [a].  From
    three turns without event on the DC is 1, and every d20 total of at least
    1 makes the event occur and resets the counter. *)
Theorem checkForEvent_guaranteed (w : World) :
  let t := turnsWithoutEvent (sheet w) in
  let w' := snd (checkForEvent w) in
  (forall a b, a <= b -> calculateEventDC b <= calculateEventDC a)
  /\ (forall a, 3 <= a -> calculateEventDC a = 1)
  /\ (3 <= t ->
      1 <= dice w (rolled w) "1d20" ->
      turnsWithoutEvent (sheet w') = 0
      /\ last (chat w')
         = Some (EventOccurs "An event occurs, roll a Kingdom Event!"
                   (kingdomEventRollMode w))).
Proof.
  intros t w'.
  split; [intros a b Hab; unfold calculateEventDC; lia|].
  split; [intros a Ha; unfold calculateEventDC; lia|].
  intros Ht Hr.
  assert (Hdc : calculateEventDC t = 1) by (unfold calculateEventDC; lia).
  subst w'. unfold checkForEvent. run_step. fold t. rewrite Hdc.
  destruct (Z.leb_spec 1 (dice w (rolled w) "1d20")); [|lia].
  cbn. split; [reflexivity|]. apply last_snoc.
Qed.

Lemma checkForEvent_guaranteed_witness :
  let k := mergeKingdom Samples.emptyKingdom
             (mkPartial None (Some 3) None None None None None) in
  let w := Samples.worldOf k [] 1 in
  3 <= turnsWithoutEvent (sheet w)
  /\ 1 <= dice w (rolled w) "1d20"
  /\ turnsWithoutEvent (sheet (snd (checkForEvent w))) = 0.
Proof.
  intros k w.
  assert (Ht : 3 <= turnsWithoutEvent (sheet w)) by (vm_compute; discriminate).
  assert (Hr : 1 <= dice w (rolled w) "1d20") by (vm_compute; discriminate).
  split; [exact Ht|]. split; [exact Hr|].
  exact (proj1 (proj2 (proj2 (checkForEvent_guaranteed w)) Ht Hr)).
Defined.

(** ** AdjustUnrest: what it rolls and posts *)

Ltac bool_facts :=
  repeat match goal with
         | H : (_ && _) = true |- _ => apply andb_true_iff in H as [? ?]
         | H : (_ && _) = false |- _ => apply andb_false_iff in H
         | H : (_ <=? _) = true |- _ => apply Z.leb_le in H
         | H : (_ <=? _) = false |- _ => apply Z.leb_gt in H
         | H : (_ <? _) = true |- _ => apply Z.ltb_lt in H
         | H : (_ <? _) = false |- _ => apply Z.ltb_ge in H
         end.

Ltac split_ifs :=
  repeat match goal with
         | |- context [if ?b then _ else _] => destruct b eqn:?; run_step
         end.

Lemma unrestIncrease_nonneg (w : World) : 0 <= unrestIncrease w.
Proof.
  unfold unrestIncrease.
  destruct (atWar (sheet w)); destruct (existsb _ _); lia.
Qed.

(** X5. Below level 20 adjustUnrest adds the turn's increase, which is never
    negative, to the unrest: the unrest never goes down, and unrest is the
    only field written. *)
Theorem adjustUnrest_adds_increase (w : World) :
  let k := sheet w in
  let k' := sheet (snd (adjustUnrest w)) in
  level k < 20 ->
  unrest k' = unrest k + unrestIncrease w
  /\ unrest k <= unrest k'
  /\ k' = mergeKingdom k
            (mkPartial (Some (unrest k + unrestIncrease w))
               None None None None None None).
Proof.
  intros k k' Hlevel. subst k'. rewrite adjustUnrest_commits. fold k.
  destruct (Z.leb_spec 20 (level k)); [lia|]. cbn [andb].
  pose proof (unrestIncrease_nonneg w).
  cbn. rewrite (Z.add_comm (unrestIncrease w)). repeat split. lia.
Qed.

Lemma adjustUnrest_adds_increase_witness :
  let k := mergeKingdom Samples.emptyKingdom
             (mkPartial (Some 9) None None None None None None) in
  let crowded :=
    Settlement.mkSettlementSceneData
      (Settlement.mkSettlementData false 0 Samples.noCommodities [])
      (Settlement.mkCurrentSceneData None None 1 "Settlement" true false) in
  let w := Samples.worldOf k [crowded] 3 in
  level (sheet w) < 20
  /\ unrest (sheet (snd (adjustUnrest w))) = 9 + 1.
Proof.
  intros k crowded w.
  assert (Hlevel : level (sheet w) < 20) by (vm_compute; reflexivity).
  split; [exact Hlevel|].
  exact (proj1 (adjustUnrest_adds_increase w Hlevel)).
Defined.

(** X6. adjustUnrest rolls dice exactly when the unrest it commits is at
    least 10: then it makes two rolls, 1d10 for ruin and 1d20 for the hex,
    and the loss of a hex is announced exactly when that 1d20 comes up 11 or
    more; otherwise it makes no roll and announces no loss. *)
Theorem adjustUnrest_rolls (w : World) :
  let w' := snd (adjustUnrest w) in
  let news := drop (length (chat w)) (chat w') in
  let hexLost := Content "You lose one hex of your choice" in
  unrest (sheet w') = committedUnrest w
  /\ rolled w' = (if 10 <=? committedUnrest w then S (S (rolled w)) else rolled w)
  /\ (10 <= committedUnrest w ->
      In (RollMessage "1d10" (dice w (rolled w) "1d10")
            "Gaining points to Ruin (distribute as you wish)" None) news
      /\ In (RollMessage "1d20" (dice w (S (rolled w)) "1d20")
               "Check if losing a hex on DC 11" None) news)
  /\ (In hexLost news
      <-> 10 <= committedUnrest w /\ 11 <= dice w (S (rolled w)) "1d20").
Proof.
  intros w' news hexLost. subst news w'.
  split; [rewrite adjustUnrest_commits; reflexivity|].
  unfold committedUnrest, adjustUnrest, unrestIncrease. run_step.
  destruct ((20 <=? level (sheet w)) && _) eqn:Hsuppress; run_step.
  - cbn [Z.ltb Z.leb Z.compare]. run_step.
    destruct (calculateAnarchy _ _ <=? 0); run_step;
      rewrite <- ?app_assoc, ?drop_app_length, ?drop_all;
      (split; [reflexivity|]); (split; [lia|]);
      (split; [cbn; intuition discriminate | lia]).
  - split_ifs; bool_facts;
      rewrite <- ?app_assoc, ?drop_app_length, ?drop_all;
      (split; [reflexivity|]);
      (split; [try lia; intros _; cbn; tauto|]);
      (split; [cbn; intuition (try discriminate; try lia) | intros [? ?]; try lia]);
      cbn; tauto.
Qed.

Lemma adjustUnrest_rolls_witness :
  let k := mergeKingdom Samples.emptyKingdom
             (mkPartial (Some 10) None None None None None None) in
  let w := Samples.worldOf k [] 12 in
  10 <= committedUnrest w
  /\ In (RollMessage "1d10" 12 "Gaining points to Ruin (distribute as you wish)" None)
       (drop (length (chat w)) (chat (snd (adjustUnrest w)))).
Proof.
  intros k w.
  assert (H10 : 10 <= committedUnrest w) by (vm_compute; discriminate).
  split; [exact H10|].
  exact (proj1 (proj1 (proj2 (proj2 (adjustUnrest_rolls w))) H10)).
Defined.

(** X7. From level 20 on adjustUnrest never commits a positive unrest: a
    positive sum of unrest and increase is replaced by 0 and announced as
    ignored, a sum that is not positive is kept; no dice are rolled and
    nothing else is posted. *)
Theorem adjustUnrest_level_20 (w : World) :
  let k := sheet w in
  let w' := snd (adjustUnrest w) in
  let sum := unrestIncrease w + unrest k in
  20 <= level k ->
  unrest (sheet w') = Z.min 0 sum
  /\ rolled w' = rolled w
  /\ chat w'
     = (chat w
        ++ (if 0 <? sum
            then [Content ("Ignoring Unrest increase due to " +:+ dquote
                           +:+ "Envy of the World" +:+ dquote +:+ " Kingdom Feature")]
            else []))%list.
Proof.
  intros k w' sum Hlevel. subst w' sum.
  split.
  { rewrite adjustUnrest_commits. fold k. cbn.
    destruct (Z.leb_spec 20 (level k)); [|lia]. cbn [andb].
    destruct (Z.ltb_spec 0 (unrestIncrease w + unrest k)); lia. }
  unfold adjustUnrest, unrestIncrease. run_step. fold k.
  destruct (Z.leb_spec 20 (level k)); [|lia]. cbn [andb].
  match goal with |- context [0 <? ?s] => destruct (Z.ltb_spec 0 s) as [Hs|Hs] end;
    run_step.
  - cbn [Z.ltb Z.leb Z.compare]. run_step.
    assert (Ha : (calculateAnarchy (feats k) (bonusFeats k) <=? 0) = false).
    { unfold calculateAnarchy. destruct (_ || _); reflexivity. }
    rewrite Ha. run_step. split; reflexivity.
  - match goal with |- context [0 <? ?s] => destruct (Z.ltb_spec 0 s); [lia|] end.
    match goal with |- context [10 <=? ?s] => destruct (Z.leb_spec 10 s); [lia|] end.
    run_step.
    match goal with
    | |- context [?a <=? ?s] =>
      assert (Ha : (a <=? s) = false)
    end.
    { apply Z.leb_gt. unfold calculateAnarchy. destruct (_ || _); lia. }
    rewrite Ha. run_step. rewrite app_nil_r. split; reflexivity.
Qed.

Lemma adjustUnrest_level_20_witness :
  let w := Samples.worldOf Samples.envyKingdom [] 3 in
  20 <= level (sheet w)
  /\ rolled (snd (adjustUnrest w)) = rolled w.
Proof.
  intros w.
  assert (Hlevel : 20 <= level (sheet w)) by (vm_compute; discriminate).
  split; [exact Hlevel|].
  exact (proj1 (proj2 (adjustUnrest_level_20 w Hlevel))).
Defined.

Lemma existsb_hasFeat (name : string) (k : Kingdom) :
  existsb (fun f => String.eqb (featId f) name) (feats k)
  || existsb (fun f => String.eqb (bonusFeatId f) name) (bonusFeats k) = true
  <-> hasFeat name k.
Proof.
  unfold hasFeat. rewrite orb_true_iff, !existsb_exists.
  split; (intros [(f & Hin & Heq)|(f & Hin & Heq)]; [left|right]);
    exists f; (split; [exact Hin|]); apply String.eqb_eq; exact Heq.
Qed.

(** X8. The anarchy threshold is 24 for a kingdom with the Endure Anarchy
    feat, as a feat or as a bonus feat, and 20 otherwise; adjustUnrest posts
    the anarchy warning exactly when the unrest it commits reaches the
    threshold, and the warning is then the last message. *)
Theorem adjustUnrest_anarchy (w : World) :
  let k := sheet w in
  let w' := snd (adjustUnrest w) in
  let news := drop (length (chat w)) (chat w') in
  let threshold := calculateAnarchy (feats k) (bonusFeats k) in
  let warning :=
    Content "Kingdom falls into anarchy, unless you spend all fame/infamy points. Only Quell Unrest leadership activities can be performed and all checks are worsened by a degree" in
  (hasFeat "Endure Anarchy" k -> threshold = 24)
  /\ (~ hasFeat "Endure Anarchy" k -> threshold = 20)
  /\ (In warning news <-> threshold <= committedUnrest w)
  /\ (threshold <= committedUnrest w -> last (chat w') = Some warning).
Proof.
  intros k w' news threshold warning.
  split; [|split].
  { intros Hhas. apply existsb_hasFeat in Hhas.
    unfold threshold, calculateAnarchy. rewrite Hhas. reflexivity. }
  { intros Hno. unfold threshold, calculateAnarchy.
    destruct (_ || _) eqn:Hb; [|reflexivity].
    exfalso. apply Hno, existsb_hasFeat. exact Hb. }
  assert (Hpos : 20 <= threshold).
  { unfold threshold, calculateAnarchy. destruct (_ || _); lia. }
  subst news w'. revert Hpos. subst threshold warning.
  unfold committedUnrest, adjustUnrest, unrestIncrease. run_step. fold k.
  generalize (calculateAnarchy (feats k) (bonusFeats k)). intros threshold Hpos.
  destruct ((20 <=? level k) && _) eqn:Hsuppress; run_step.
  - cbn [Z.ltb Z.leb Z.compare]. run_step.
    destruct (Z.leb_spec threshold 0); [lia|]. run_step.
    rewrite drop_app_length.
    split; [|lia]. cbn. split; [|lia]. intuition discriminate.
  - split_ifs; bool_facts;
      rewrite <- ?app_assoc, ?drop_app_length, ?drop_all;
      (split;
       [ cbn; split; [intuition (try discriminate; try lia) | intros; try lia; tauto]
       | intros; try lia;
         rewrite ?app_assoc; apply last_snoc ]).
Qed.

Lemma adjustUnrest_anarchy_witness :
  let k := mergeKingdom Samples.emptyKingdom
             (mkPartial (Some 20) None None None None None None) in
  let w := Samples.worldOf k [] 3 in
  ~ hasFeat "Endure Anarchy" (sheet w)
  /\ calculateAnarchy (feats (sheet w)) (bonusFeats (sheet w)) = 20.
Proof.
  intros k w.
  assert (Hno : ~ hasFeat "Endure Anarchy" (sheet w)).
  { intros [(f & Hin & _)|(f & Hin & _)]; destruct Hin. }
  split; [exact Hno|].
  exact (proj1 (proj2 (adjustUnrest_anarchy w)) Hno).
Defined.

(** ** The affordability gate and paying for a structure *)

Lemma checkBuildingCost_costs (structure : Structure) (kingdom : Kingdom) :
  checkBuildingCost structure kingdom = true
  <-> default 0 (construction structure ≫= rp) <= now (resourcePoints kingdom)
      /\ default 0 (construction structure ≫= constructionLumber)
         <= lumber (now (commodities kingdom))
      /\ default 0 (construction structure ≫= constructionOre)
         <= ore (now (commodities kingdom))
      /\ default 0 (construction structure ≫= constructionStone)
         <= stone (now (commodities kingdom))
      /\ default 0 (construction structure ≫= constructionLuxuries)
         <= luxuries (now (commodities kingdom)).
Proof.
  unfold checkBuildingCost, checkLumberCost, checkRpCost, checkLuxuriesCost,
    checkOreCost, checkStoneCost.
  rewrite !andb_true_iff, !Z.leb_le. tauto.
Qed.

(** X9. checkBuildingCost holds exactly when each of the five costs of the
    structure, a missing cost counting as 0, is at most what the kingdom has
    this turn; a structure without construction data is affordable exactly
    when none of the five quantities of the kingdom is negative. *)
Theorem checkBuildingCost_affordable (structure : Structure) (kingdom : Kingdom) :
  let cost get := default 0 (construction structure ≫= get) in
  (checkBuildingCost structure kingdom = true
   <-> cost rp <= now (resourcePoints kingdom)
       /\ cost constructionLumber <= lumber (now (commodities kingdom))
       /\ cost constructionOre <= ore (now (commodities kingdom))
       /\ cost constructionStone <= stone (now (commodities kingdom))
       /\ cost constructionLuxuries <= luxuries (now (commodities kingdom)))
  /\ (construction structure = None ->
      (checkBuildingCost structure kingdom = true
       <-> 0 <= now (resourcePoints kingdom)
           /\ 0 <= lumber (now (commodities kingdom))
           /\ 0 <= ore (now (commodities kingdom))
           /\ 0 <= stone (now (commodities kingdom))
           /\ 0 <= luxuries (now (commodities kingdom)))).
Proof.
  intros cost. subst cost. cbn beta.
  split; [apply checkBuildingCost_costs|].
  intros Hnone. rewrite checkBuildingCost_costs, Hnone. reflexivity.
Qed.

Lemma checkBuildingCost_affordable_witness :
  let hut := mkStructure "Hut" None in
  construction hut = None
  /\ checkBuildingCost hut Samples.emptyKingdom = true.
Proof.
  intros hut.
  assert (Hnone : construction hut = None) by reflexivity.
  split; [exact Hnone|].
  apply (proj2 (checkBuildingCost_affordable hut Samples.emptyKingdom) Hnone).
  cbn. lia.
Defined.

(** X10. The pay callback computes from the browser's own copy of the
    kingdom, [this.kingdom], whatever the stored sheet holds.  It never
    leaves a negative quantity of resource points, ore, lumber, luxuries or
    stone; the food, the next-turn commodities and the next-turn resource
    points it stores are those of the copy, so they are unchanged when the
    copy agrees with the stored sheet on them; and when the costs paid are
    those of a structure that passes checkBuildingCost on the copy, each
    quantity stored is the copy's quantity less exactly its cost. *)
Theorem pay_within_means
    (formatCosts : Costs -> string) (structure : Structure) (costs : Costs)
    (kingdom : Kingdom) (w : World) :
  let k' := sheet (snd (pay formatCosts kingdom costs w)) in
  let cost get := default 0 (construction structure ≫= get) in
  (0 <= now (resourcePoints k')
   /\ 0 <= ore (now (commodities k'))
   /\ 0 <= lumber (now (commodities k'))
   /\ 0 <= luxuries (now (commodities k'))
   /\ 0 <= stone (now (commodities k')))
  /\ (food (now (commodities k')) = food (now (commodities kingdom))
      /\ next (commodities k') = next (commodities kingdom)
      /\ next (resourcePoints k') = next (resourcePoints kingdom))
  /\ (food (now (commodities kingdom)) = food (now (commodities (sheet w))) ->
      next (commodities kingdom) = next (commodities (sheet w)) ->
      next (resourcePoints kingdom) = next (resourcePoints (sheet w)) ->
      food (now (commodities k')) = food (now (commodities (sheet w)))
      /\ next (commodities k') = next (commodities (sheet w))
      /\ next (resourcePoints k') = next (resourcePoints (sheet w)))
  /\ (checkBuildingCost structure kingdom = true ->
      costs = mkCosts (cost rp) (cost constructionOre) (cost constructionLumber)
                (cost constructionLuxuries) (cost constructionStone) ->
      now (resourcePoints k') = now (resourcePoints kingdom) - cost rp
      /\ ore (now (commodities k'))
         = ore (now (commodities kingdom)) - cost constructionOre
      /\ lumber (now (commodities k'))
         = lumber (now (commodities kingdom)) - cost constructionLumber
      /\ luxuries (now (commodities k'))
         = luxuries (now (commodities kingdom)) - cost constructionLuxuries
      /\ stone (now (commodities k'))
         = stone (now (commodities kingdom)) - cost constructionStone)
  /\ unrest k' = unrest (sheet w)
  /\ ruin k' = ruin (sheet w)
  /\ resourceDice k' = resourceDice (sheet w).
Proof.
  intros k' cost. subst k'. unfold pay. run_step. cbn.
  split; [repeat split; lia|].
  split; [repeat split|].
  split; [intros <- <- <-; repeat split|].
  split; [|repeat split].
  intros Hafford ->. cbn.
  apply checkBuildingCost_costs in Hafford.
  subst cost. cbn beta in *. lia.
Qed.

Lemma pay_within_means_witness :
  let k := mergeKingdom Samples.emptyKingdom
             (mkPartial None None None (Some (mkTurns 12 0)) None None None) in
  let w := Samples.worldOf Samples.emptyKingdom [] 0 in
  let costs := mkCosts 10 0 0 0 0 in
  checkBuildingCost Samples.theater k = true
  /\ now (resourcePoints (sheet (snd (pay (fun _ => "10 RP") k costs w)))) = 2.
Proof.
  intros k w costs.
  assert (Hafford : checkBuildingCost Samples.theater k = true) by reflexivity.
  split; [exact Hafford|].
  destruct (pay_within_means (fun _ => "10 RP") Samples.theater costs k w)
    as (_ & _ & _ & Hexact & _).
  rewrite (proj1 (Hexact Hafford eq_refl)). reflexivity.
Defined.

(** ** Limits of the resource buttons *)

Lemma limitCommodityKey_read (type : string) :
  limitCommodityKey type = readCommodityKey type.
Proof.
  unfold limitCommodityKey, readCommodityKey.
  repeat (case_tag type; [reflexivity|]). reflexivity.
Qed.

Section Limits.

Variable Game : Type.
Variable getSizeData : Z -> KingdomSizeData.
Variable getCapacity : Game -> Z -> Commodities.
Variable unslugify : string -> string.

(** X11. getLimit gives a limit exactly for the five commodity tags on the
    next turn, the tags getCurrentValue reads from the commodities, and the
    limit is the capacity of that commodity; nothing on the current turn and
    no other tag has a limit. *)
Theorem getLimit_next_commodities
    (game : Game) (kingdom : Kingdom) (type : string) (turn : ResourceTurn) (l : Z) :
  getLimit Game getSizeData getCapacity game kingdom type turn = Some l
  <-> turn = Next
      /\ exists key,
           readCommodityKey type = Some key
           /\ l = atCommodity key
                    (getCapacity game (commodityCapacity (getSizeData (size kingdom)))).
Proof.
  unfold getLimit. rewrite limitCommodityKey_read.
  destruct turn, (readCommodityKey type) as [key|]; split;
    try discriminate; try (intros [? _]; discriminate);
    try (intros (_ & key' & Hkey & _); discriminate).
  - intros [= <-]. split; [reflexivity|]. exists key. split; reflexivity.
  - intros (_ & key' & [= <-] & ->). reflexivity.
Qed.

(** X12. A gain or a loss on a next-turn commodity, computed with the limit
    of getLimit and written with createUpdate, stores the maximum of the
    capacity and the changed value: what is read back is never below the
    capacity.  On the current turn the changed value is stored as it is. *)
Theorem next_turn_commodity_floor
    (game : Game) (kingdom : Kingdom) (type : string) (key : CommodityKey)
    (mode : ResourceMode) (d : Z) :
  let capacity :=
    atCommodity key (getCapacity game (commodityCapacity (getSizeData (size kingdom)))) in
  let changed c := match mode with gain => c + d | lose => c - d end in
  let stored turn :=
    rvValue (calculateNewValue unslugify
               (atCommodity key (atTurn turn (commodities kingdom))) d type turn mode
               (getLimit Game getSizeData getCapacity game kingdom type turn)) in
  readCommodityKey type = Some key ->
  (forall turn,
      getCurrentValue kingdom type turn
      = Ok (atCommodity key (atTurn turn (commodities kingdom))))
  /\ stored Next = Z.max capacity (changed (atCommodity key (next (commodities kingdom))))
  /\ capacity <= stored Next
  /\ stored Now = changed (atCommodity key (now (commodities kingdom)))
  /\ (forall turn,
        exists u,
          createUpdate kingdom type turn (stored turn) = Ok u
          /\ getCurrentValue (mergeKingdom kingdom u) type turn = Ok (stored turn)).
Proof.
  intros capacity changed stored Hkey.
  assert (Hread : forall k turn,
             getCurrentValue k type turn = Ok (atCommodity key (atTurn turn (commodities k)))).
  { intros k turn. unfold getCurrentValue. rewrite Hkey. reflexivity. }
  assert (Hnext : stored Next
                  = Z.max capacity (changed (atCommodity key (next (commodities kingdom))))).
  { unfold stored, getLimit. rewrite limitCommodityKey_read, Hkey.
    destruct mode; reflexivity. }
  split; [apply Hread|]. split; [exact Hnext|]. split; [rewrite Hnext; lia|].
  split; [unfold stored; destruct mode; reflexivity|].
  intros turn. apply read_after_write.
  revert Hkey. unfold readCommodityKey.
  repeat (case_tag type; [intros _; in_tags|]). discriminate.
Qed.

End Limits.

Lemma next_turn_commodity_floor_witness :
  let gain1 :=
    rvValue (calculateNewValue (fun s => s)
               (atCommodity Food (atTurn Next (commodities Samples.emptyKingdom))) 1
               "food" Next gain
               (getLimit unit Samples.d6SizeData (fun _ c => mkCommodities c c c c c)
                  tt Samples.emptyKingdom "food" Next)) in
  readCommodityKey "food" = Some Food /\ 4 <= gain1.
Proof.
  intros gain1.
  assert (Hkey : readCommodityKey "food" = Some Food) by reflexivity.
  split; [exact Hkey|].
  exact (proj1 (proj2 (proj2
           (next_turn_commodity_floor unit Samples.d6SizeData
              (fun _ c => mkCommodities c c c c c) (fun s => s)
              tt Samples.emptyKingdom "food" Food gain 1 Hkey)))).
Defined.

(** ** Writes of the resolver stay in their place *)

Ltac frame_case type' Hcell :=
  unfold getCurrentValue, readCommodityKey, readRuinKey, cellOf in *;
  repeat (case_tag type'; [first [reflexivity | exfalso; apply Hcell; reflexivity] | ]);
  reflexivity.

(** X13. The update createUpdate builds for a tag and a turn changes only
    the place that tag and turn denote: after saving it, every read of
    another place, on either turn, gives what it gave before, and every tag
    and turn denoting the same place reads the value written. *)
Theorem createUpdate_frame
    (k : Kingdom) (type type' : string) (turn turn' : ResourceTurn) (v : Z)
    (u : PartialKingdom) :
  createUpdate k type turn v = Ok u ->
  (cellOf type' turn' <> cellOf type turn ->
   getCurrentValue (mergeKingdom k u) type' turn' = getCurrentValue k type' turn')
  /\ (cellOf type' turn' = cellOf type turn ->
      getCurrentValue (mergeKingdom k u) type' turn' = Ok v).
Proof.
  intros Hu.
  destruct (createUpdate_cases k type turn v) as [[Hin _]|[_ Hthrow]]; [|congruence].
  cbn in Hin.
  repeat (destruct Hin as [<-|Hin];
          [ cbn in Hu; injection Hu as <-; split; intros Hcell;
            [ destruct turn, turn'; frame_case type' Hcell
            | destruct turn, turn'; revert Hcell;
              unfold getCurrentValue, readCommodityKey, readRuinKey, cellOf;
              repeat (case_tag type'; [first [reflexivity | discriminate
                                             | intros [=]] | ]);
              discriminate ]
          | ]).
  destruct Hin.
Qed.

Lemma createUpdate_frame_witness :
  createUpdate Samples.miningKingdom "ore" Next 7
  = Ok (mkPartial None None
          (Some (mkTurns (mkCommodities 0 0 3 0 0) (mkCommodities 0 0 7 0 0)))
          None None None None)
  /\ getCurrentValue
       (mergeKingdom Samples.miningKingdom
          (mkPartial None None
             (Some (mkTurns (mkCommodities 0 0 3 0 0) (mkCommodities 0 0 7 0 0)))
             None None None None))
       "ore" Now
     = Ok 3.
Proof.
  assert (Hu : createUpdate Samples.miningKingdom "ore" Next 7
               = Ok (mkPartial None None
                       (Some (mkTurns (mkCommodities 0 0 3 0 0) (mkCommodities 0 0 7 0 0)))
                       None None None None)) by reflexivity.
  split; [exact Hu|].
  rewrite (proj1 (createUpdate_frame Samples.miningKingdom "ore" "ore" Next Now 7 _ Hu)).
  - reflexivity.
  - discriminate.
Defined.

(** ** The leadership-activity number *)

(** X14. The leadership-activity number of the kingdom is 2 or 3, and it is
    3 exactly when some settlement has the leadership-activity bonus. *)
Theorem getSettlementData_leadership (l : list Settlement.SettlementSceneData) :
  (leadershipActivityNumber (getSettlementData l) = 2
   \/ leadershipActivityNumber (getSettlementData l) = 3)
  /\ (leadershipActivityNumber (getSettlementData l) = 3
      <-> exists s, In s l
                    /\ Settlement.leadershipActivityBonus (Settlement.settlement s) = true).
Proof.
  destruct (fold_reduce_fields l getSettlementData_init) as (Hn & _).
  fold (getSettlementData l) in Hn. rewrite Hn. clear Hn.
  cbn [getSettlementData_init leadershipActivityNumber].
  induction l as [|s l [Hrange IH]]; cbn [List.map fold_right].
  - split; [left; reflexivity|]. split; [discriminate|]. intros (s & [] & _).
  - destruct (Settlement.leadershipActivityBonus (Settlement.settlement s)) eqn:Hs.
    + split; [right; lia|]. split; [|lia].
      intros _. exists s. split; [left; reflexivity | exact Hs].
    + split; [lia|]. split.
      * intros H3. destruct (proj1 IH) as (s' & Hin & Hs'); [lia|].
        exists s'. split; [right; exact Hin | exact Hs'].
      * intros (s' & [<-|Hin] & Hs'); [congruence|].
        assert (H3 : fold_right Z.max 2
                       (List.map
                          (fun s0 => if Settlement.leadershipActivityBonus
                                          (Settlement.settlement s0) then 3 else 2) l) = 3).
        { apply IH. exists s'. split; assumption. }
        lia.
Qed.

(** ** Schema migrations *)

Section MigrationProperties.

Import Migrations.

Variable Camping : Type.
Variable Other : Type.

Local Abbreviation Migration := (Migrations.Migration Camping Other).
Local Abbreviation Game := (Migrations.Game Camping Other).

Lemma latestMigration_bounds (ms : list Migration) :
  1 <= latestMigration ms /\ forall m, In m ms -> version m <= latestMigration ms.
Proof.
  unfold latestMigration.
  induction ms as [|m ms [IH1 IH2]]; cbn [List.map fold_right].
  - split; [lia|]. intros m [].
  - split; [lia|]. intros m' [<-|Hin]; [lia|]. specialize (IH2 m' Hin). lia.
Qed.

Lemma latestMigration_app (ms1 ms2 : list Migration) :
  latestMigration (ms1 ++ ms2) = Z.max (latestMigration ms1) (latestMigration ms2).
Proof.
  unfold latestMigration.
  induction ms1 as [|m ms1 IH]; cbn [List.map fold_right app].
  - pose proof (latestMigration_bounds ms2) as [H1 _]. unfold latestMigration in H1. lia.
  - rewrite IH. lia.
Qed.

Lemma filter_all (ms : list Migration) (v : Z) :
  (forall m, In m ms -> v < version m) ->
  List.filter (fun m => v <? version m) ms = ms.
Proof.
  induction ms as [|m ms IH]; intros Hall; cbn [List.filter]; [reflexivity|].
  destruct (Z.ltb_spec v (version m)) as [_|Hge].
  - f_equal. apply IH. intros m' Hin. apply Hall. right. exact Hin.
  - specialize (Hall m (or_introl eq_refl)). lia.
Qed.

Lemma filter_none (ms : list Migration) (v : Z) :
  (forall m, In m ms -> version m <= v) ->
  List.filter (fun m => v <? version m) ms = [].
Proof.
  induction ms as [|m ms IH]; intros Hall; cbn [List.filter]; [reflexivity|].
  destruct (Z.ltb_spec v (version m)) as [Hlt|_].
  - specialize (Hall m (or_introl eq_refl)). lia.
  - apply IH. intros m' Hin. apply Hall. right. exact Hin.
Qed.

Lemma filter_sublist (ms : list Migration) (v : Z) :
  sublist (List.filter (fun m => v <? version m) ms) ms.
Proof.
  induction ms as [|m ms IH]; cbn [List.filter]; [constructor|].
  destruct (v <? version m); [apply sublist_skip | apply sublist_cons]; exact IH.
Qed.

Lemma migrate_skip (ms : list Migration) (ka ca : bool) (g : Game) :
  isFirstGm g = false \/ latestMigration ms <= schemaVersion g ->
  migrate ms ka ca g = g.
Proof.
  intros Hg. unfold migrate.
  destruct (isFirstGm g); cbn [andb]; [|reflexivity].
  destruct (Z.ltb_spec (schemaVersion g) (latestMigration ms)); [|reflexivity].
  destruct Hg; [discriminate | lia].
Qed.

Lemma migrate_version (ms : list Migration) (ka ca : bool) (g : Game) :
  isFirstGm g = true ->
  schemaVersion g < latestMigration ms ->
  schemaVersion (migrate ms ka ca g) = latestMigration ms.
Proof.
  intros Hgm Hlt. unfold migrate. rewrite Hgm. cbn [andb].
  destruct (Z.ltb_spec (schemaVersion g) (latestMigration ms)); [reflexivity | lia].
Qed.

(** Methods that keep to their own object run as a fold over the object. *)
Lemma runAll_keeps {A} (f : Migration -> Game -> A -> Game * A)
    (ms : list Migration) (g g0 : Game) (x : A) :
  (forall m, In m ms ->
             (forall g x, fst (f m g x) = g)
             /\ (forall g g' x, snd (f m g x) = snd (f m g' x))) ->
  runAll f ms g x = (g, fold_left (fun x m => snd (f m g0 x)) ms x).
Proof.
  unfold runAll. revert x.
  induction ms as [|m ms IH]; intros x Hkeeps; cbn [fold_left fst snd]; [reflexivity|].
  destruct (Hkeeps m (or_introl eq_refl)) as [Hfst Hsnd].
  rewrite (surjective_pairing (f m g x)), Hfst, (Hsnd g g0).
  apply IH. intros m' Hin. apply Hkeeps. right. exact Hin.
Qed.

Lemma withOther_withOther (o o' : Other) (g : Game) :
  withOther o (withOther o' g) = withOther o g.
Proof. reflexivity. Qed.

Lemma runOthers_keeps (ms : list Migration) (g g0 : Game) :
  (forall m, In m ms -> keepsToItself m) ->
  runOthers ms g
  = withOther
      (fold_left (fun o m => other (migrateOther m (withOther o g0))) ms (other g)) g.
Proof.
  unfold runOthers. revert g.
  induction ms as [|m ms IH]; intros g Hkeeps; cbn [fold_left].
  - destruct g; reflexivity.
  - destruct (Hkeeps m (or_introl eq_refl)) as (_ & _ & _ & _ & Honly & Hother).
    rewrite (Honly g).
    rewrite (Hother g (withOther (other g) g0)) by reflexivity.
    rewrite IH by (intros m' Hin; apply Hkeeps; right; exact Hin).
    reflexivity.
Qed.

(** The game migrate leaves when it runs migrations that keep to their own
    object; [g0] is any game to hand to the methods. *)
Lemma migrate_run (ms : list Migration) (ka ca : bool) (g g0 : Game) :
  isFirstGm g = true ->
  schemaVersion g < latestMigration ms ->
  (forall m, In m ms -> keepsToItself m) ->
  migrate ms ka ca g
  = mkGame Camping Other (latestMigration ms)
      (Some (mkBackup (schemaVersion g)
               (if ca then Some (campingSheet g) else None)
               (if ka then Some (kingdomSheet g) else None)))
      (isFirstGm g)
      (if ka
       then fold_left (fun k m => snd (migrateKingdom m g0 k))
              (migrationsToRun ms (schemaVersion g)) (kingdomSheet g)
       else kingdomSheet g)
      (if ca
       then fold_left (fun c m => snd (migrateCamping m g0 c))
              (migrationsToRun ms (schemaVersion g)) (campingSheet g)
       else campingSheet g)
      (fold_left (fun o m => other (migrateOther m (withOther o g0)))
         (migrationsToRun ms (schemaVersion g)) (other g))
      ((notifications g
        ++ [ "Running Kingmaker Tools Migrations, please do not close the window" ])
       ++ [ "Successfully migrated Kingmaker tools" ])%list.
Proof.
  intros Hgm Hlt Hkeeps. unfold migrate. rewrite Hgm. cbn [andb].
  destruct (Z.ltb_spec (schemaVersion g) (latestMigration ms)); [|lia].
  assert (Hrun : forall m, In m (migrationsToRun ms (schemaVersion g)) -> keepsToItself m).
  { intros m Hin. apply Hkeeps. unfold migrationsToRun in Hin.
    apply filter_In in Hin. tauto. }
  cbv zeta.
  destruct ka, ca;
    rewrite ?(runAll_keeps migrateKingdom _ _ g0)
      by (intros m Hin; destruct (Hrun m Hin) as (? & ? & _); tauto);
    cbn [fst snd];
    rewrite ?(runAll_keeps migrateCamping _ _ g0)
      by (intros m Hin; destruct (Hrun m Hin) as (_ & _ & ? & ? & _); tauto);
    cbn [fst snd];
    rewrite (runOthers_keeps _ _ g0) by exact Hrun;
    cbv [info setSchemaVersion saveKingdom saveCamping createBackups
         setLatestMigrationBackup withOther];
    cbn [schemaVersion latestMigrationBackup isFirstGm kingdomSheet campingSheet
         other notifications];
    rewrite ?Hgm; reflexivity.
Qed.

(** X15. migrate does nothing for a user who is not the first GM or when the
    schema version has reached the latest migration; otherwise it leaves the
    schema version at the latest migration, which is at least 1 and at least
    every migration's version.  So migrating a second time changes
    nothing. *)
Theorem migrate_idempotent
    (ms : list Migration) (kingdomActor campingActor : bool) (game : Game) :
  (isFirstGm game = false \/ latestMigration ms <= schemaVersion game ->
   migrate ms kingdomActor campingActor game = game)
  /\ (isFirstGm game = true -> schemaVersion game < latestMigration ms ->
      schemaVersion (migrate ms kingdomActor campingActor game) = latestMigration ms)
  /\ (forall kingdomActor' campingActor',
        migrate ms kingdomActor' campingActor'
          (migrate ms kingdomActor campingActor game)
        = migrate ms kingdomActor campingActor game).
Proof.
  split; [apply migrate_skip|]. split; [apply migrate_version|].
  intros ka' ca'. apply migrate_skip.
  destruct (isFirstGm game) eqn:Hgm.
  - destruct (Z.lt_ge_cases (schemaVersion game) (latestMigration ms)) as [Hlt|Hge].
    + right. rewrite (migrate_version _ _ _ _ Hgm Hlt). lia.
    + rewrite (migrate_skip ms kingdomActor campingActor game); [|right; exact Hge].
      right. exact Hge.
  - rewrite (migrate_skip ms kingdomActor campingActor game); left; exact Hgm.
Qed.

(** X16. When migrate runs migrations that keep to their own object, the
    game it leaves is known field by field: the schema version is the latest
    migration; the backup holds the old schema version and the sheets as they
    were before any migration ran, nothing for a missing actor; each sheet
    whose actor is present, and the rest of the game, has gone through the
    migrations with a version above the old schema version, the first of the
    list first, and a sheet whose actor is missing is as it was; the two
    notifications are added.  The migrations run are a sublist of the list,
    and afterwards no migration is newer than the schema version. *)
Theorem migrate_backup
    (ms : list Migration) (kingdomActor campingActor : bool) (game : Game) :
  let game' := migrate ms kingdomActor campingActor game in
  let run := migrationsToRun ms (schemaVersion game) in
  isFirstGm game = true ->
  schemaVersion game < latestMigration ms ->
  (forall m, In m ms -> keepsToItself m) ->
  game'
  = mkGame Camping Other (latestMigration ms)
      (Some (mkBackup (schemaVersion game)
               (if campingActor then Some (campingSheet game) else None)
               (if kingdomActor then Some (kingdomSheet game) else None)))
      (isFirstGm game)
      (if kingdomActor
       then fold_left (fun k m => snd (migrateKingdom m game k)) run (kingdomSheet game)
       else kingdomSheet game)
      (if campingActor
       then fold_left (fun c m => snd (migrateCamping m game c)) run (campingSheet game)
       else campingSheet game)
      (fold_left (fun o m => other (migrateOther m (withOther o game))) run (other game))
      ((notifications game
        ++ [ "Running Kingmaker Tools Migrations, please do not close the window" ])
       ++ [ "Successfully migrated Kingmaker tools" ])%list
  /\ (forall m, In m run <-> In m ms /\ schemaVersion game < version m)
  /\ sublist run ms
  /\ (forall m, In m ms -> version m <= schemaVersion game').
Proof.
  intros game' run Hgm Hlt Hkeeps. subst game' run.
  split; [apply migrate_run; assumption|].
  split; [|split].
  - intros m. unfold migrationsToRun. rewrite filter_In, Z.ltb_lt. reflexivity.
  - apply filter_sublist.
  - rewrite migrate_version by assumption. apply latestMigration_bounds.
Qed.

(** X17. For migrations that keep to their own object, migrating in two
    steps gives the same sheets and schema version as migrating at once:
    when the migrations added to a list are all newer than those of the list,
    migrating with the old list and then with the extended list leaves the
    kingdom, the camping sheet, the rest of the game and the schema version
    as migrating with the extended list alone does. *)
Theorem migrate_in_steps
    (ms1 ms2 : list Migration) (kingdomActor campingActor : bool) (game : Game) :
  let once := migrate (ms1 ++ ms2) kingdomActor campingActor game in
  let twice :=
    migrate (ms1 ++ ms2) kingdomActor campingActor
      (migrate ms1 kingdomActor campingActor game) in
  (forall m, In m ms2 -> latestMigration ms1 < version m) ->
  (forall m, In m (ms1 ++ ms2) -> keepsToItself m) ->
  kingdomSheet twice = kingdomSheet once
  /\ campingSheet twice = campingSheet once
  /\ other twice = other once
  /\ schemaVersion twice = schemaVersion once.
Proof.
  intros once twice Hnewer Hkeeps. subst once twice.
  assert (Hkeeps1 : forall m, In m ms1 -> keepsToItself m).
  { intros m Hin. apply Hkeeps, in_app_iff. left. exact Hin. }
  pose proof (latestMigration_bounds ms1) as [_ Hold].
  pose proof (latestMigration_app ms1 ms2) as Hlatest.
  destruct (isFirstGm game) eqn:Hgm.
  2: { rewrite (migrate_skip ms1) by (left; exact Hgm). repeat split. }
  destruct (Z.lt_ge_cases (schemaVersion game) (latestMigration ms1)) as [Hlt|Hge].
  2: { rewrite (migrate_skip ms1) by (right; exact Hge). repeat split. }
  assert (Hrun1 : migrationsToRun (ms1 ++ ms2) (schemaVersion game)
                  = (migrationsToRun ms1 (schemaVersion game) ++ ms2)%list).
  { unfold migrationsToRun. rewrite List.filter_app. f_equal.
    apply filter_all. intros m Hin. specialize (Hnewer m Hin). lia. }
  assert (Hrun2 : migrationsToRun (ms1 ++ ms2) (latestMigration ms1) = ms2).
  { unfold migrationsToRun. rewrite List.filter_app.
    rewrite (filter_none ms1) by exact Hold.
    apply filter_all. exact Hnewer. }
  rewrite (migrate_run ms1 _ _ game game) by assumption.
  rewrite (migrate_run (ms1 ++ ms2) _ _ game game) by (try assumption; lia).
  destruct (Z.lt_ge_cases (latestMigration ms1) (latestMigration (ms1 ++ ms2)))
    as [Hmore|Hsame].
  - rewrite (migrate_run (ms1 ++ ms2) _ _ _ game) by (cbn; assumption).
    cbn [schemaVersion kingdomSheet campingSheet other].
    rewrite Hrun1, Hrun2. rewrite !fold_left_app.
    destruct kingdomActor, campingActor; repeat split.
  - rewrite migrate_skip by (right; cbn; exact Hsame).
    cbn [schemaVersion kingdomSheet campingSheet other].
    assert (Hnil : ms2 = []).
    { destruct ms2 as [|m ms2']; [reflexivity|].
      specialize (Hnewer m (or_introl eq_refl)).
      pose proof (latestMigration_bounds (ms1 ++ m :: ms2')) as [_ Hall].
      specialize (Hall m). rewrite in_app_iff in Hall.
      specialize (Hall (or_intror (or_introl eq_refl))). lia. }
    rewrite Hrun1. subst ms2. rewrite !app_nil_r in *.
    repeat split.
Qed.

End MigrationProperties.

Lemma sample_migration_keeps (v : Z) (f : Kingdom -> Kingdom) :
  Migrations.keepsToItself
    (Migrations.mkMigration unit unit v (fun g k => (g, f k)) (fun g c => (g, c))
       (fun g => g)).
Proof.
  unfold Migrations.keepsToItself. cbn.
  split; [reflexivity|]. split; [reflexivity|].
  split; [reflexivity|]. split; [reflexivity|].
  split; [intros g; destruct g; reflexivity|].
  intros g g' Hother. exact Hother.
Qed.

Lemma migrate_idempotent_witness :
  let m2 := Migrations.mkMigration unit unit 2
              (fun g k => (g, k)) (fun g c => (g, c)) (fun g => g) in
  let game := Migrations.mkGame unit unit 1 None true Samples.emptyKingdom tt tt [] in
  Migrations.isFirstGm game = true
  /\ Migrations.schemaVersion game < Migrations.latestMigration [m2]
  /\ Migrations.schemaVersion (Migrations.migrate [m2] true true game) = 2.
Proof.
  intros m2 game.
  assert (Hgm : Migrations.isFirstGm game = true) by reflexivity.
  assert (Hlt : Migrations.schemaVersion game < Migrations.latestMigration [m2])
    by (vm_compute; reflexivity).
  split; [exact Hgm|]. split; [exact Hlt|].
  exact (proj1 (proj2 (migrate_idempotent unit unit [m2] true true game)) Hgm Hlt).
Defined.

Lemma migrate_backup_witness :
  let m2 := Migrations.mkMigration unit unit 2
              (fun g k =>
                 (g, mergeKingdom k (mkPartial (Some 7) None None None None None None)))
              (fun g c => (g, c)) (fun g => g) in
  let game := Migrations.mkGame unit unit 1 None true Samples.emptyKingdom tt tt [] in
  Migrations.isFirstGm game = true
  /\ Migrations.schemaVersion game < Migrations.latestMigration [m2]
  /\ (forall m, In m [m2] -> Migrations.keepsToItself m)
  /\ unrest (Migrations.kingdomSheet (Migrations.migrate [m2] true false game)) = 7
  /\ Migrations.latestMigrationBackup (Migrations.migrate [m2] true false game)
     = Some (Migrations.mkBackup 1 None (Some Samples.emptyKingdom)).
Proof.
  intros m2 game.
  assert (Hgm : Migrations.isFirstGm game = true) by reflexivity.
  assert (Hlt : Migrations.schemaVersion game < Migrations.latestMigration [m2])
    by (vm_compute; reflexivity).
  assert (Hkeeps : forall m, In m [m2] -> Migrations.keepsToItself m).
  { intros m [<-|[]]. apply sample_migration_keeps. }
  split; [exact Hgm|]. split; [exact Hlt|]. split; [exact Hkeeps|].
  rewrite (proj1 (migrate_backup unit unit [m2] true false game Hgm Hlt Hkeeps)).
  split; reflexivity.
Defined.

Lemma migrate_in_steps_witness :
  let m2 := Migrations.mkMigration unit unit 2
              (fun g k =>
                 (g, mergeKingdom k (mkPartial (Some 7) None None None None None None)))
              (fun g c => (g, c)) (fun g => g) in
  let m3 := Migrations.mkMigration unit unit 3
              (fun g k =>
                 (g, mergeKingdom k
                       (mkPartial (Some (unrest k + 1)) None None None None None None)))
              (fun g c => (g, c)) (fun g => g) in
  let game := Migrations.mkGame unit unit 1 None true Samples.emptyKingdom tt tt [] in
  (forall m, In m [m3] -> Migrations.latestMigration [m2] < Migrations.version m)
  /\ (forall m, In m ([m2] ++ [m3]) -> Migrations.keepsToItself m)
  /\ Migrations.kingdomSheet
       (Migrations.migrate ([m2] ++ [m3]) true true (Migrations.migrate [m2] true true game))
     = Migrations.kingdomSheet (Migrations.migrate ([m2] ++ [m3]) true true game).
Proof.
  intros m2 m3 game.
  assert (Hnewer : forall m, In m [m3]
                             -> Migrations.latestMigration [m2] < Migrations.version m).
  { intros m [<-|[]]. vm_compute. reflexivity. }
  assert (Hkeeps : forall m, In m ([m2] ++ [m3]) -> Migrations.keepsToItself m).
  { intros m [<-|[<-|[]]]; apply sample_migration_keeps. }
  split; [exact Hnewer|]. split; [exact Hkeeps|].
  exact (proj1 (migrate_in_steps unit unit [m2] [m3] true true game Hnewer Hkeeps)).
Defined.

(** ** Combat effects of the camp *)

Section CombatEffects.

Variable Inherited : Type.
Variable objectPrototype : string -> option Inherited.

Lemma getCombatEffects_fold
    (l : list Camping.CampingActivity) (acc : gmap string (Camping.Entry Inherited))
    (name : string) (x : Camping.Entry Inherited) :
  (forall n y, acc !! n = Some y -> Camping.lookupIn objectPrototype n = Some y) ->
  fold_left (Camping.getCombatEffects_each objectPrototype) l acc !! name = Some x
  <-> acc !! name = Some x
      \/ (Camping.lookupIn objectPrototype name = Some x
          /\ name <> "__proto__"
          /\ exists a, In a l /\ Camping.activity a = name
                       /\ Camping.truthy (Camping.actorUuid a) = true).
Proof.
  revert acc. induction l as [|a l IH]; intros acc Hacc; cbn [fold_left].
  - split; [tauto|]. intros [H|(_ & _ & a & [] & _)]. exact H.
  - assert (Hstep : forall n y,
               Camping.getCombatEffects_each objectPrototype acc a !! n = Some y
               <-> acc !! n = Some y
                   \/ (Camping.lookupIn objectPrototype n = Some y
                       /\ n <> "__proto__" /\ Camping.activity a = n
                       /\ Camping.truthy (Camping.actorUuid a) = true)).
    { intros n y. unfold Camping.getCombatEffects_each, Camping.assign.
      destruct (Camping.lookupIn objectPrototype (Camping.activity a)) as [v|] eqn:Hv;
        [destruct (Camping.truthy (Camping.actorUuid a)) eqn:Htruthy;
         [destruct (String.eqb_spec (Camping.activity a) "__proto__") as [Hproto|Hproto]|]|].
      - split; [tauto|]. intros [H|(_ & Hn & <- & _)]; [exact H | contradiction].
      - destruct (decide (Camping.activity a = n)) as [<-|Hn].
        + rewrite lookup_insert_eq. split.
          * intros [= <-]. right. tauto.
          * intros [H|(Hy & _)]; [apply Hacc in H|]; congruence.
        + rewrite lookup_insert_ne by exact Hn. split; [tauto|].
          intros [H|(_ & _ & Heq & _)]; [exact H | contradiction].
      - split; [tauto|]. intros [H|(_ & _ & _ & Ht)]; [exact H | discriminate].
      - split; [tauto|]. intros [H|(Hy & _ & <- & _)]; [exact H | congruence]. }
    rewrite IH.
    + rewrite Hstep. split.
      * intros [[H|(Hx & Hn & Ha & Ht)]|(Hx & Hn & a' & Hin & Ha')]; [tauto| |].
        -- right. split; [exact Hx|]. split; [exact Hn|]. exists a. cbn. tauto.
        -- right. split; [exact Hx|]. split; [exact Hn|]. exists a'. cbn. tauto.
      * intros [H|(Hx & Hn & a' & [<-|Hin] & Ha & Ht)]; [tauto|tauto|].
        right. split; [exact Hx|]. split; [exact Hn|]. exists a'. tauto.
    + intros n y Hy. apply Hstep in Hy as [Hy|(Hy & _)]; [apply Hacc|]; exact Hy.
Qed.

(** X18. getCombatEffects lists an effect under a name exactly when the
    name is one of the four keys of the combat effects table and some camping
    activity of that name is performed by an actor, its actor uuid being
    neither null nor empty; the effect listed is the one of the table.  Under
    a name that is no key of the table it lists something only when the name
    is a property inherited from Object.prototype other than '__proto__' and
    such an activity exists, and what it lists is then the inherited value,
    no effect. *)
Theorem getCombatEffects_lookup
    (campingActivities : list Camping.CampingActivity) (name : string) :
  let performed :=
    exists a u, In a campingActivities
                /\ Camping.activity a = name
                /\ Camping.actorUuid a = Some u /\ u <> "" in
  let result := Camping.getCombatEffects objectPrototype campingActivities in
  (forall e,
      result !! name = Some (Camping.Effect e)
      <-> Camping.combatEffects !! name = Some e /\ performed)
  /\ (forall v,
        result !! name = Some (Camping.InheritedValue v)
        <-> Camping.combatEffects !! name = None
            /\ objectPrototype name = Some v
            /\ name <> "__proto__"
            /\ performed)
  /\ (Camping.combatEffects !! name = None -> objectPrototype name = None ->
      result !! name = None).
Proof.
  intros performed result.
  assert (Hperformed :
            performed
            <-> exists a, In a campingActivities /\ Camping.activity a = name
                          /\ Camping.truthy (Camping.actorUuid a) = true).
  { subst performed. split.
    - intros (a & u & Hin & Hname & Hu & Hne). exists a.
      repeat split; try assumption. unfold Camping.truthy. rewrite Hu.
      destruct (String.eqb_spec u ""); [contradiction | reflexivity].
    - intros (a & Hin & Hname & Ht). unfold Camping.truthy in Ht.
      destruct (Camping.actorUuid a) as [u|] eqn:Hu; [|discriminate].
      exists a, u. repeat split; try assumption. intros ->. discriminate. }
  assert (Hlookup : forall x,
             result !! name = Some x
             <-> Camping.lookupIn objectPrototype name = Some x
                 /\ name <> "__proto__" /\ performed).
  { intros x. subst result. unfold Camping.getCombatEffects.
    rewrite getCombatEffects_fold by (intros n y; rewrite lookup_empty; discriminate).
    rewrite lookup_empty, Hperformed. split; [|tauto].
    intros [H|H]; [discriminate | exact H]. }
  assert (Hkeys : forall e, Camping.combatEffects !! name = Some e -> name <> "__proto__").
  { intros e He ->. vm_compute in He. discriminate. }
  split; [|split].
  - intros e. rewrite Hlookup. unfold Camping.lookupIn.
    destruct (Camping.combatEffects !! name) as [e'|] eqn:He.
    + split.
      * intros ([= <-] & _ & Hp). tauto.
      * intros ([= <-] & Hp). split; [reflexivity|]. split; [|exact Hp].
        apply (Hkeys e'). reflexivity.
    + destruct (objectPrototype name); cbn; split;
        try (intros (H & _); discriminate); intros (H & _); discriminate.
  - intros v. rewrite Hlookup. unfold Camping.lookupIn.
    destruct (Camping.combatEffects !! name) as [e'|] eqn:He.
    + split; intros (H & _); discriminate.
    + destruct (objectPrototype name) as [v'|]; cbn; split.
      * intros ([= <-] & Hn & Hp). tauto.
      * intros (_ & [= <-] & Hn & Hp). tauto.
      * intros (H & _). discriminate.
      * intros (_ & H & _). discriminate.
  - intros Hnone Hproto.
    destruct (result !! name) as [x|]; [|reflexivity].
    destruct (proj1 (Hlookup x) eq_refl) as (Hx & _).
    unfold Camping.lookupIn in Hx. rewrite Hnone, Hproto in Hx. discriminate.
Qed.

End CombatEffects.

Lemma getCombatEffects_lookup_witness :
  let proto name := if String.eqb name "toString" then Some tt else None in
  let cook := Camping.mkCampingActivity "Cook Meal" (Some "Actor.a") None None in
  Camping.combatEffects !! "Cook Meal" = None
  /\ proto "Cook Meal" = None
  /\ Camping.getCombatEffects proto [cook] !! "Cook Meal" = None.
Proof.
  intros proto cook.
  assert (Hnone : Camping.combatEffects !! "Cook Meal" = None) by reflexivity.
  assert (Hproto : proto "Cook Meal" = None) by reflexivity.
  split; [exact Hnone|]. split; [exact Hproto|].
  exact (proj2 (proj2 (getCombatEffects_lookup unit proto [cook] "Cook Meal"))
           Hnone Hproto).
Defined.

(** ** Settlement scenes *)

(** X19. A scene without settlement data reads as a level 1 scene of type
    '-' and is never listed as a settlement; getSettlements lists the data of
    exactly the scenes of type 'Settlement' or 'Capital'; and the capital
    scene, when there is one, is a scene of type 'Capital' that is listed
    among the settlements, none being found only when no scene is a
    capital. *)
Theorem getSettlements_capital (scenes : list Scenes.Scene) :
  (forall scene,
      Scenes.settlementData scene = None ->
      Scenes.getSceneData scene
      = Settlement.mkCurrentSceneData (Scenes.sceneName scene) (Scenes.sceneId scene)
          1 "-" false false
      /\ ~ In (Scenes.getSceneData scene) (Scenes.getSettlements scenes))
  /\ (forall d,
        In d (Scenes.getSettlements scenes)
        <-> exists scene,
              In scene scenes /\ d = Scenes.getSceneData scene
              /\ (Settlement.settlementType d = "Settlement"
                  \/ Settlement.settlementType d = "Capital"))
  /\ (forall capital,
        Scenes.getCapitalScene scenes = Some capital ->
        In capital scenes
        /\ Settlement.settlementType (Scenes.getSceneData capital) = "Capital"
        /\ In (Scenes.getSceneData capital) (Scenes.getSettlements scenes))
  /\ (Scenes.getCapitalScene scenes = None
      <-> forall scene,
            In scene scenes ->
            Settlement.settlementType (Scenes.getSceneData scene) <> "Capital").
Proof.
  assert (Hlisted : forall d,
             In d (Scenes.getSettlements scenes)
             <-> exists scene,
                   In scene scenes /\ d = Scenes.getSceneData scene
                   /\ (Settlement.settlementType d = "Settlement"
                       \/ Settlement.settlementType d = "Capital")).
  { intros d. unfold Scenes.getSettlements.
    rewrite filter_In, in_map_iff, orb_true_iff, !String.eqb_eq.
    split.
    - intros ((scene & <- & Hin) & Htype). exists scene. tauto.
    - intros (scene & Hin & -> & Htype). split; [|exact Htype]. exists scene. tauto. }
  split; [|split; [exact Hlisted|split]].
  - intros scene Hnone. split.
    + unfold Scenes.getSceneData. rewrite Hnone. reflexivity.
    + intros Hin. apply Hlisted in Hin as (scene' & _ & Heq & Htype).
      unfold Scenes.getSceneData in Htype at 1 2. rewrite Hnone in Htype.
      cbn in Htype. destruct Htype; discriminate.
  - intros capital Hfind. unfold Scenes.getCapitalScene in Hfind.
    apply find_some in Hfind as [Hin Htype]. apply String.eqb_eq in Htype.
    split; [exact Hin|]. split; [exact Htype|].
    apply Hlisted. exists capital. tauto.
  - unfold Scenes.getCapitalScene. split.
    + intros Hnone scene Hin Htype.
      pose proof (find_none _ _ Hnone scene Hin) as Hfalse. cbn beta in Hfalse.
      apply String.eqb_eq in Htype. congruence.
    + intros Hall.
      destruct (List.find _ scenes) as [capital|] eqn:Hfind; [|reflexivity].
      apply find_some in Hfind as [Hin Htype]. apply String.eqb_eq in Htype.
      exfalso. exact (Hall capital Hin Htype).
Qed.

Lemma getSettlements_capital_witness :
  let village := Scenes.mkScene (Some "Village") (Some "a") None in
  let city :=
    Scenes.mkScene (Some "City") (Some "b")
      (Some (Scenes.mkSceneSettlementData 3 "Capital" false false)) in
  Scenes.getCapitalScene [village; city] = Some city
  /\ In (Scenes.getSceneData city) (Scenes.getSettlements [village; city]).
Proof.
  intros village city.
  assert (Hcap : Scenes.getCapitalScene [village; city] = Some city) by reflexivity.
  split; [exact Hcap|].
  exact (proj2 (proj2 (proj1 (proj2 (proj2 (getSettlements_capital [village; city])))
                         city Hcap))).
Defined.

(** ** The order of the settlement scenes *)

Lemma filter_length_perm {A} (f : A -> bool) (l l' : list A) :
  Permutation l l' -> length (List.filter f l) = length (List.filter f l').
Proof.
  induction 1 as [|x l l' _ IH|x y l|l l' l'' _ IH1 _ IH2]; cbn [List.filter].
  - reflexivity.
  - destruct (f x); cbn [length]; congruence.
  - destruct (f x), (f y); reflexivity.
  - congruence.
Qed.

Lemma existsb_perm {A} (f : A -> bool) (l l' : list A) :
  Permutation l l' -> existsb f l = existsb f l'.
Proof.
  induction 1 as [|x l l' _ IH|x y l|l l' l'' _ IH1 _ IH2]; cbn [existsb].
  - reflexivity.
  - congruence.
  - destruct (f x), (f y); reflexivity.
  - congruence.
Qed.

Lemma getSettlementData_perm (l l' : list Settlement.SettlementSceneData) :
  Permutation l l' -> getSettlementData l = getSettlementData l'.
Proof.
  intros Hperm. unfold getSettlementData.
  apply fold_reduce_perm, Permutation_map, Hperm.
Qed.

(** X20. The turn steps do not depend on the order in which the game lists
    the settlement scenes: with the scenes reordered, endTurn,
    collectResources, payConsumption and adjustUnrest leave the same kingdom,
    post the same messages and make the same rolls. *)
Theorem steps_ignore_scene_order
    (getSizeData : Z -> KingdomSizeData) (getLevelData : Z -> LevelData.t)
    (w : World) (scenes : list Settlement.SettlementSceneData) :
  let w2 := mkWorld (sheet w) scenes (kingdomEventRollMode w) (chat w) (dice w) (rolled w) in
  let same (step : App unit) :=
    sheet (snd (step w2)) = sheet (snd (step w))
    /\ chat (snd (step w2)) = chat (snd (step w))
    /\ rolled (snd (step w2)) = rolled (snd (step w)) in
  Permutation (settlementScenes w) scenes ->
  same (endTurn getSizeData)
  /\ same (collectResources getSizeData getLevelData)
  /\ same payConsumption
  /\ same adjustUnrest.
Proof.
  intros w2 same Hperm. subst same w2. cbn beta.
  pose proof (getSettlementData_perm _ _ Hperm) as Hdata.
  pose proof (filter_length_perm
                (fun s => Settlement.overcrowded (Settlement.scenedData s)) _ _ Hperm)
    as Hcrowded.
  pose proof (existsb_perm
                (fun s => Settlement.secondaryTerritory (Settlement.scenedData s)) _ _ Hperm)
    as Hsecondary.
  split; [|split; [|split]].
  - unfold endTurn, getCapacity. run_step. rewrite <- Hdata. repeat split.
  - unfold collectResources, rollResourceDice, getCapacity. run_step.
    rewrite <- Hdata. repeat split.
  - unfold payConsumption. run_step. rewrite <- Hdata.
    match goal with |- context [if ?b then _ else _] => destruct b end;
      run_step; repeat split.
  - unfold adjustUnrest. run_step. rewrite <- Hcrowded, <- Hsecondary.
    split_ifs; repeat split.
Qed.

Lemma steps_ignore_scene_order_witness :
  let a := Settlement.mkSettlementSceneData
             (Settlement.mkSettlementData true 2 (mkCommodities 1 0 0 0 0) ["a"])
             (Settlement.mkCurrentSceneData None None 1 "Capital" true false) in
  let b := Settlement.mkSettlementSceneData
             (Settlement.mkSettlementData false 3 (mkCommodities 0 2 0 0 0) ["b"])
             (Settlement.mkCurrentSceneData None None 1 "Settlement" false true) in
  let w := Samples.worldOf Samples.miningKingdom [a; b] 3 in
  let w2 := mkWorld (sheet w) [b; a] (kingdomEventRollMode w) (chat w) (dice w) (rolled w) in
  Permutation (settlementScenes w) [b; a]
  /\ sheet (snd (adjustUnrest w2)) = sheet (snd (adjustUnrest w)).
Proof.
  intros a b w w2.
  assert (Hperm : Permutation (settlementScenes w) [b; a]) by apply perm_swap.
  split; [exact Hperm|].
  exact (proj1 (proj2 (proj2 (proj2
           (steps_ignore_scene_order Samples.d6SizeData (Samples.levelDataOf 5)
              w [b; a] Hperm))))).
Defined.

(** ** More on the proficiency gate and the ledger *)

(** X21. Raising the kingdom's skill ranks never closes the proficiency gate:
    a structure that passes checkProficiency still passes when every recorded
    rank is kept or raised.  A requirement on a skill the kingdom has no rank
    recorded for is met by no kingdom, whatever rank it asks for. *)
Theorem checkProficiency_monotone (structure : Structure) (k k' : Kingdom) :
  (forall s r, skillRanks k !! s = Some r ->
               exists r', skillRanks k' !! s = Some r' /\ r <= r') ->
  (checkProficiency structure k = true -> checkProficiency structure k' = true)
  /\ (forall requirement,
        skillRanks k !! skill requirement = None ->
        meetsRequirement k requirement = false).
Proof.
  intros Hraise. split.
  - unfold checkProficiency. destruct (construction structure) as [c|]; [|reflexivity].
    rewrite !orb_true_iff, !existsb_exists.
    intros [Hnil|(req & Hin & Hmeets)]; [left; exact Hnil|].
    right. exists req. split; [exact Hin|].
    unfold meetsRequirement in *.
    destruct (skillRanks k !! skill req) as [r|] eqn:Hr; [|discriminate].
    destruct (Hraise _ _ Hr) as (r' & -> & Hle).
    apply Z.leb_le in Hmeets. apply Z.leb_le. lia.
  - intros requirement Hnone. unfold meetsRequirement. rewrite Hnone. reflexivity.
Qed.

Lemma checkProficiency_monotone_witness :
  let trained := mergeKingdom Samples.artsKingdom emptyUpdate in
  (forall s r, skillRanks Samples.artsKingdom !! s = Some r ->
               exists r', skillRanks trained !! s = Some r' /\ r <= r')
  /\ checkProficiency Samples.theater trained = true.
Proof.
  intros trained.
  assert (Hraise : forall s r, skillRanks Samples.artsKingdom !! s = Some r ->
                               exists r', skillRanks trained !! s = Some r' /\ r <= r').
  { intros s r Hr. exists r. split; [exact Hr | lia]. }
  split; [exact Hraise|].
  exact (proj1 (checkProficiency_monotone Samples.theater Samples.artsKingdom trained Hraise)
           eq_refl).
Defined.

(** X22. Without a limit, losing an amount after gaining it gives back the
    value one started from, and gaining after losing as well; with a limit
    the result is never below the limit, and applying a change of 0 with the
    same limit to a result leaves it as it is. *)
Theorem calculateNewValue_round_trip
    (unslugify : string -> string) (c d : Z) (type : string)
    (turn : ResourceTurn) (mode : ResourceMode) (limit : Z) :
  let value c d mode limit :=
    rvValue (calculateNewValue unslugify c d type turn mode limit) in
  value (value c d gain None) d lose None = c
  /\ value (value c d lose None) d gain None = c
  /\ limit <= value c d mode (Some limit)
  /\ value (value c d mode (Some limit)) 0 mode (Some limit)
     = value c d mode (Some limit).
Proof.
  cbn. destruct mode; repeat split; lia.
Qed.
